(** * Index-pattern refresh: a shallow embedding of
      [dashboards/scripts/index-refresh.py]

    The script is one linear [main]: it probes the dashboard service, resolves
    the index pattern, fetches its field list, optionally merges the fields of
    an OpenSearch template, builds the drilldown [fieldFormatMap] and writes
    the index pattern back.

    Conventions of the embedding.
    - A Python [str] is a Rocq [string], one [ascii] per code point; this
      covers the code points U+0000..U+00FF, and the character tables below
      are those of the Unicode database on that range.
    - A decoded JSON document is a value of [json]; numbers are Python [int]s
      (floating-point numbers are not part of the embedding); a [dict] is an
      association list in insertion order.
    - The network is an oracle [world] giving, for each of the six call
      sites of [requests.get]/[requests.put], what that call does.
    - Text written to stdout is kept verbatim; lines written to stderr are
      kept as structured [log] records, because their text goes through
      Python's [repr]/[str] of arbitrary values. *)

From Stdlib Require Import ZArith Ascii String List Bool Lia.
From stdpp Require Import base option list strings gmap fin_maps.

Local Open Scope string_scope.
Local Open Scope Z_scope.
Local Open Scope list_scope.
Set Warnings "-register-all".

(** ** Characters and strings *)

Module PyStr.

Definition code (c : ascii) : N := N_of_ascii c.

Definition between (lo hi : N) (c : ascii) : bool :=
  (N.leb lo (code c) && N.leb (code c) hi)%N.

(** [str.isalpha] on one code point: the letters. *)
Definition isalpha_char (c : ascii) : bool :=
  between 65 90 c || between 97 122 c
  || N.eqb (code c) 170 || N.eqb (code c) 181 || N.eqb (code c) 186
  || between 192 214 c || between 216 246 c || between 248 255 c.

(** The [\w] class of [re] on a [str] pattern: alphanumeric or underscore. *)
Definition isword_char (c : ascii) : bool :=
  isalpha_char c || between 48 57 c || N.eqb (code c) 95
  || N.eqb (code c) 178 || N.eqb (code c) 179 || N.eqb (code c) 185
  || between 188 190 c.

(** Lower-casing as far as it can reach an ASCII letter. *)
Definition lower_char (c : ascii) : ascii :=
  if between 65 90 c then ascii_of_N (code c + 32) else c.

(** [s[:1].isalpha()] *)
Definition head_isalpha (s : string) : bool :=
  match s with
  | EmptyString => false
  | String c _ => isalpha_char c
  end.

(** [s.startswith(p)] *)
Fixpoint startswith (p s : string) : bool :=
  match p, s with
  | EmptyString, _ => true
  | String a p', String b s' => Ascii.eqb a b && startswith p' s'
  | String _ _, EmptyString => false
  end.

(** [p in s] for two strings: [p] occurs in [s]. *)
Fixpoint contains (p s : string) : bool :=
  startswith p s ||
  match s with
  | EmptyString => false
  | String _ s' => contains p s'
  end.

(** The characters of a string, each as a one-character string. *)
Fixpoint chars (s : string) : list string :=
  match s with
  | EmptyString => []
  | String c s' => String c EmptyString :: chars s'
  end.

Definition quote : string := String (ascii_of_N 34) EmptyString.
Definition newline : ascii := ascii_of_N 10.
Definition backspace : ascii := ascii_of_N 8.

End PyStr.

(** ** The fragment of [re] the script uses

    Every pattern of the script is built from literals, bracket classes,
    grouping, alternation, [?], and the zero-width assertions [^], [$] and
    [\b]; all are searched with [re.IGNORECASE]. *)

Module Re.

Inductive regex : Type :=
| Lit (c : ascii)            (* one literal character *)
| Cls (cs : list ascii)      (* a bracket class *)
| Cat (r1 r2 : regex)
| Alt (r1 r2 : regex)
| Opt (r : regex)            (* r? *)
| Eps                        (* the empty pattern *)
| Bol                        (* ^ *)
| Eol                        (* $ *)
| Wb.                        (* \b outside a class *)

Fixpoint lit (s : string) : regex :=
  match s with
  | EmptyString => Eps
  | String c s' => Cat (Lit c) (lit s')
  end.

Fixpoint alts (rs : list regex) : regex :=
  match rs with
  | [] => Eps
  | [r] => r
  | r :: rs' => Alt r (alts rs')
  end.

Fixpoint cats (rs : list regex) : regex :=
  match rs with
  | [] => Eps
  | r :: rs' => Cat r (cats rs')
  end.

Definition word_before (pre : option ascii) : bool :=
  match pre with Some c => PyStr.isword_char c | None => false end.

Definition word_after (rest : string) : bool :=
  match rest with String c _ => PyStr.isword_char c | EmptyString => false end.

(** [$] without [re.MULTILINE]: the end of the string, or just before a
    newline that ends the string. *)
Definition at_eol (rest : string) : bool :=
  match rest with
  | EmptyString => true
  | String c EmptyString => Ascii.eqb c PyStr.newline
  | _ => false
  end.

(** [matches r pre rest k]: [r] matches at the position whose preceding
    character is [pre] ([None] at the start of the subject) and whose
    remaining text is [rest], and the continuation [k] accepts what follows. *)
Fixpoint matches (r : regex) (pre : option ascii) (rest : string)
    (k : option ascii -> string -> bool) : bool :=
  match r with
  | Lit c =>
      match rest with
      | String d rest' =>
          Ascii.eqb (PyStr.lower_char d) (PyStr.lower_char c) && k (Some d) rest'
      | EmptyString => false
      end
  | Cls cs =>
      match rest with
      | String d rest' =>
          existsb (Ascii.eqb (PyStr.lower_char d)) cs && k (Some d) rest'
      | EmptyString => false
      end
  | Cat r1 r2 => matches r1 pre rest (fun p s => matches r2 p s k)
  | Alt r1 r2 => matches r1 pre rest k || matches r2 pre rest k
  | Opt r1 => matches r1 pre rest k || k pre rest
  | Eps => k pre rest
  | Bol => match pre with None => k pre rest | Some _ => false end
  | Eol => at_eol rest && k pre rest
  | Wb => negb (Bool.eqb (word_before pre) (word_after rest)) && k pre rest
  end.

Fixpoint search_from (r : regex) (pre : option ascii) (rest : string) : bool :=
  matches r pre rest (fun _ _ => true) ||
  match rest with
  | EmptyString => false
  | String c rest' => search_from r (Some c) rest'
  end.

(** [re.search(r, s, re.IGNORECASE) is not None] *)
Definition search (r : regex) (s : string) : bool := search_from r None s.

End Re.

(** The nine patterns of the drilldown rules, in source order. *)
Module Pat.
Import Re.

(** [[_\.-]] *)
Definition sep : regex := Cls ["_"; "."; "-"]%char.
(** [[\b_\.-]]: inside a class [\b] is the backspace character. *)
Definition bsep : regex := Cls [PyStr.backspace; "_"; "."; "-"]%char.

(** [[_\.-](h|ip)$] *)
Definition ip_host : regex :=
  cats [sep; alts [lit "h"; lit "ip"]; Eol].

(** [(^|[\b_\.-])(md5|sha(1|256|384|512))\b] *)
Definition hash : regex :=
  cats [alts [Bol; bsep];
        alts [lit "md5";
              Cat (lit "sha") (alts [lit "1"; lit "256"; lit "384"; lit "512"])];
        Wb].

(** [(^|[\b_\.-])(hit|signature(_?id))?s?$] *)
Definition hit_signature : regex :=
  cats [alts [Bol; bsep];
        Opt (alts [lit "hit";
                   Cat (lit "signature") (Cat (Opt (lit "_")) (lit "id"))]);
        Opt (lit "s");
        Eol].

(** [(^|src|dst|source|dest|destination|[\b_\.-])p(ort)?s?$] *)
Definition port : regex :=
  cats [alts [Bol; lit "src"; lit "dst"; lit "source"; lit "dest";
              lit "destination"; bsep];
        lit "p"; Opt (lit "ort"); Opt (lit "s"); Eol].

(** [^(protocol?|network\.protocol)$] *)
Definition protocol : regex :=
  cats [Bol;
        alts [Cat (lit "protoco") (Opt (lit "l")); lit "network.protocol"];
        Eol].

(** [^(network\.transport|ipProtocol)$] *)
Definition transport : regex :=
  cats [Bol; alts [lit "network.transport"; lit "ipProtocol"]; Eol].

(** [(as\.number|(src|dst)ASN|asn\.(src|dst))$] *)
Definition asn : regex :=
  cats [alts [lit "as.number";
              Cat (alts [lit "src"; lit "dst"]) (lit "ASN");
              Cat (lit "asn.") (alts [lit "src"; lit "dst"])];
        Eol].

(** [mime[_\.-]?type] *)
Definition mime : regex :=
  cats [lit "mime"; Opt sep; lit "type"].

(** [(^zeek\.files\.extracted$)] *)
Definition extracted : regex :=
  cats [Bol; lit "zeek.files.extracted"; Eol].

End Pat.

(** ** Decoded JSON and the Python operations applied to it *)

Inductive json : Type :=
| JNull                                  (* None *)
| JBool (b : bool)
| JNum (n : Z)
| JStr (s : string)
| JArr (l : list json)
| JObj (kv : list (string * json)).

Inductive exn : Type :=
| RequestException (what : string)       (* raised by requests.get / requests.put *)
| HTTPError (status : Z)                 (* raised by raise_for_status *)
| JSONDecodeError                        (* raised by Response.json *)
| KeyError (k : json)
| IndexError
| TypeError
| AttributeError.

Inductive result (A : Type) : Type :=
| Ok (a : A)
| Raise (e : exn).
Arguments Ok {A} a.
Arguments Raise {A} e.

Module Py.

(** [d[k]] on an association list: the first binding of [k]. *)
Fixpoint dict_get {A : Type} (k : string) (kv : list (string * A)) : option A :=
  match kv with
  | [] => None
  | (k', v) :: kv' => if String.eqb k k' then Some v else dict_get k kv'
  end.

Definition dict_keys {A : Type} (kv : list (string * A)) : list string := map fst kv.

(** [a == b] *)
Fixpoint eq (a b : json) : bool :=
  match a, b with
  | JNull, JNull => true
  | JBool x, JBool y => Bool.eqb x y
  | JBool x, JNum n => Z.eqb (Z.b2z x) n
  | JNum n, JBool y => Z.eqb n (Z.b2z y)
  | JNum n, JNum m => Z.eqb n m
  | JStr s, JStr t => String.eqb s t
  | JArr l, JArr l' =>
      (fix go (l l' : list json) : bool :=
         match l, l' with
         | [], [] => true
         | x :: l, y :: l' => eq x y && go l l'
         | _, _ => false
         end) l l'
  | JObj kv, JObj kv' =>
      Nat.eqb (length kv) (length kv') &&
      (fix go (kv : list (string * json)) : bool :=
         match kv with
         | [] => true
         | (k, v) :: kv =>
             match dict_get k kv' with
             | Some v' => eq v v'
             | None => false
             end && go kv
         end) kv
  | _, _ => false
  end.

(** [x in l] for a Python list or tuple [l]. *)
Definition in_list (x : json) (l : list json) : bool := existsb (eq x) l.

(** [l[i]] for a sequence, with Python's negative indices. *)
Definition index {A : Type} (l : list A) (i : Z) : option A :=
  let n := Z.of_nat (length l) in
  let j := (if i <? 0 then i + n else i)%Z in
  if ((0 <=? j) && (j <? n))%Z then nth_error l (Z.to_nat j) else None.

Definition as_index (k : json) : option Z :=
  match k with
  | JNum n => Some n
  | JBool b => Some (Z.b2z b)
  | _ => None
  end.

(** [c[k]] *)
Definition getitem (c k : json) : result json :=
  match c with
  | JObj kv =>
      match k with
      | JStr s => match dict_get s kv with Some v => Ok v | None => Raise (KeyError k) end
      | JArr _ | JObj _ => Raise TypeError          (* unhashable key *)
      | _ => Raise (KeyError k)
      end
  | JArr l =>
      match as_index k with
      | Some i => match index l i with Some v => Ok v | None => Raise IndexError end
      | None => Raise TypeError
      end
  | JStr s =>
      match as_index k with
      | Some i =>
          match index (PyStr.chars s) i with
          | Some ch => Ok (JStr ch)
          | None => Raise IndexError
          end
      | None => Raise TypeError
      end
  | _ => Raise TypeError
  end.

(** ['k' in c] for a string constant [k]. *)
Definition contains (k : string) (c : json) : result bool :=
  match c with
  | JObj kv => Ok (match dict_get k kv with Some _ => true | None => false end)
  | JArr l => Ok (in_list (JStr k) l)
  | JStr s => Ok (PyStr.contains k s)
  | _ => Raise TypeError
  end.

(** [len(c)] *)
Definition len (c : json) : result nat :=
  match c with
  | JObj kv => Ok (length kv)
  | JArr l => Ok (length l)
  | JStr s => Ok (String.length s)
  | _ => Raise TypeError
  end.

(** The values [for x in c] runs through. *)
Definition iter (c : json) : result (list json) :=
  match c with
  | JObj kv => Ok (map JStr (dict_keys kv))
  | JArr l => Ok l
  | JStr s => Ok (map JStr (PyStr.chars s))
  | _ => Raise TypeError
  end.

(** [c.append(x)]: only a list has the method. *)
Definition append (c x : json) : result json :=
  match c with
  | JArr l => Ok (JArr (l ++ [x]))
  | _ => Raise AttributeError
  end.

End Py.

(** ** Drilldown links (lines 177-264 of the script) *)

Record UrlTemplate : Type := { url : string; label : string }.
Record DrilldownParams : Type := { urlTemplates : list (option UrlTemplate) }.
Record DrilldownInfo : Type := { info_id : string; params : DrilldownParams }.

Module Link.

Definition value : string := "{{value}}".

(** The link every field gets: query the value in Arkime. *)
Definition base (name : string) (type : json) : UrlTemplate :=
  let valQuote := if Py.eq type (JStr "string") then PyStr.quote else "" in
  let valDbPrefix := if PyStr.startswith "zeek" name then "" else "db:" in
  {| url := "/idkib2ark/" +:+ valDbPrefix +:+ name +:+ " == "
              +:+ valQuote +:+ value +:+ valQuote;
     label := "Arkime " +:+ name +:+ ": " +:+ valQuote +:+ value +:+ valQuote |}.

Definition virustotal_ip : UrlTemplate :=
  {| url := "https://www.virustotal.com/en/ip-address/{{value}}/information/";
     label := "VirusTotal IP: {{value}}" |}.

Definition virustotal_hash : UrlTemplate :=
  {| url := "https://www.virustotal.com/gui/file/{{value}}/detection";
     label := "VirusTotal Hash: {{value}}" |}.

Definition web_search : UrlTemplate :=
  {| url := "https://duckduckgo.com/?q=" +:+ PyStr.quote +:+ value +:+ PyStr.quote;
     label := "Web Search: {{value}}" |}.

Definition port_registry : UrlTemplate :=
  {| url := "https://www.iana.org/assignments/service-names-port-numbers/service-names-port-numbers.xhtml?search={{value}}";
     label := "Port Registry: {{value}}" |}.

Definition service_registry : UrlTemplate :=
  {| url := "https://www.iana.org/assignments/service-names-port-numbers/service-names-port-numbers.xhtml?search={{value}}";
     label := "Service Registry: {{value}}" |}.

Definition protocol_registry : UrlTemplate :=
  {| url := "https://www.iana.org/assignments/protocol-numbers/protocol-numbers.xhtml";
     label := "Protocol Registry" |}.

Definition arin_asn : UrlTemplate :=
  {| url := "https://search.arin.net/rdap/?query={{value}}&searchFilter=asn";
     label := "ARIN ASN: {{value}}" |}.

Definition media_type : UrlTemplate :=
  {| url := "https://www.iana.org/assignments/media-types/{{value}}";
     label := "Media Type Registry: {{value}}" |}.

Definition download_quarantined : UrlTemplate :=
  {| url := "/dl-extracted-files/quarantine/{{value}}";
     label := "Download (if quarantined)" |}.

Definition download_preserved : UrlTemplate :=
  {| url := "/dl-extracted-files/preserved/{{value}}";
     label := "Download (if preserved)" |}.

End Link.

(** The list built for one field by lines 182-255: the placeholder, the base
    link, then what the [if]/[elif] chain appends. *)
Definition drilldownInfoParamsUrlTemplates (name : string) (type : json)
    : list (option UrlTemplate) :=
  let templates := [None; Some (Link.base name type)] in
  if Py.eq type (JStr "ip") || Re.search Pat.ip_host name then
    templates ++ [Some Link.virustotal_ip]
  else if Re.search Pat.hash name then
    templates ++ [Some Link.virustotal_hash]
  else if Re.search Pat.hit_signature name then
    templates ++ [Some Link.web_search]
  else if Re.search Pat.port name then
    templates ++ [Some Link.port_registry]
  else if Re.search Pat.protocol name then
    templates ++ [Some Link.service_registry]
  else if Re.search Pat.transport name then
    templates ++ [Some Link.protocol_registry]
  else if Re.search Pat.asn name then
    templates ++ [Some Link.arin_asn]
  else if Re.search Pat.mime name then
    templates ++ [Some Link.media_type]
  else if Re.search Pat.extracted name then
    (templates ++ [Some Link.download_quarantined]) ++ [Some Link.download_preserved]
  else
    templates.

Definition drilldownInfo (name : string) (type : json) : DrilldownInfo :=
  {| info_id := "drilldown";
     params := {| urlTemplates := drilldownInfoParamsUrlTemplates name type |} |}.

(** One turn of the loop of line 178 on the map built so far.  The name is
    read first (line 179) and must be a string for [[:1].isalpha()]; the
    type is read only for a name that passes the test (line 182). *)
Definition format_field (fieldFormatMap : gmap string DrilldownInfo) (field : json)
    : result (gmap string DrilldownInfo) :=
  match Py.getitem field (JStr "name") with
  | Raise e => Raise e
  | Ok (JStr name) =>
      if PyStr.head_isalpha name then
        match Py.getitem field (JStr "type") with
        | Raise e => Raise e
        | Ok type => Ok (<[name := drilldownInfo name type]> fieldFormatMap)
        end
      else Ok fieldFormatMap
  | Ok (JArr _) => Raise AttributeError      (* a list slice has no isalpha *)
  | Ok _ => Raise TypeError                  (* no slice to take *)
  end.

Fixpoint format_fields (fieldFormatMap : gmap string DrilldownInfo) (fields : list json)
    : result (gmap string DrilldownInfo) :=
  match fields with
  | [] => Ok fieldFormatMap
  | field :: rest =>
      match format_field fieldFormatMap field with
      | Ok m => format_fields m rest
      | Raise e => Raise e
      end
  end.

(** Lines 177-264: [fieldFormatMap = {}] and the loop over [getFieldsList]. *)
Definition build_fieldFormatMap (getFieldsList : json) : result (gmap string DrilldownInfo) :=
  match Py.iter getFieldsList with
  | Ok fields => format_fields ∅ fields
  | Raise e => Raise e
  end.

(** ** Template merge (lines 116-140) *)

Definition mergeFieldTypes : list json :=
  map JStr ["date"; "float"; "integer"; "ip"; "keyword"; "long"; "short"; "text"].

(** The descriptor of lines 123-138 for a template field of low-level type
    [type]; the keys are in the order the script assigns them. *)
Definition mergedFieldInfo (field type : json) : json :=
  let esTypes := [type] in
  let semantic :=
    if Py.eq type (JStr "float") || Py.eq type (JStr "integer")
       || Py.eq type (JStr "long") || Py.eq type (JStr "short")
    then JStr "number"
    else if Py.eq type (JStr "keyword") || Py.eq type (JStr "text")
    then JStr "string"
    else type in
  let aggregatable := negb (Py.in_list (JStr "text") esTypes) in
  JObj [("name", field);
        ("esTypes", JArr esTypes);
        ("type", semantic);
        ("searchable", JBool true);
        ("aggregatable", JBool aggregatable);
        ("readFromDocValues", JBool aggregatable)].

(** The two lists the merge loop mutates in place. *)
Record merge_state : Type :=
  { fieldsNames : list json; getFieldsList : json }.

(** One turn of the loop of line 116: the state it leaves and the exception
    it raises, if any.  Line 139 appends to [fieldsNames] before line 140
    appends to [getFieldsList]. *)
Definition merge_field (getTemplateInfo : json) (st : merge_state) (field : json)
    : merge_state * option exn :=
  if negb (Py.in_list field (fieldsNames st)) then
    match Py.getitem getTemplateInfo field with
    | Raise e => (st, Some e)
    | Ok entry =>
        match Py.contains "type" entry with
        | Raise e => (st, Some e)
        | Ok false => (st, None)
        | Ok true =>
            match Py.getitem entry (JStr "type") with
            | Raise e => (st, Some e)
            | Ok type =>
                if Py.in_list type mergeFieldTypes then
                  let names := fieldsNames st ++ [field] in
                  match Py.append (getFieldsList st) (mergedFieldInfo field type) with
                  | Ok fields => ({| fieldsNames := names; getFieldsList := fields |}, None)
                  | Raise e =>
                      ({| fieldsNames := names; getFieldsList := getFieldsList st |}, Some e)
                  end
                else (st, None)
            end
        end
    end
  else (st, None).

Fixpoint merge_fields (getTemplateInfo : json) (st : merge_state) (fields : list json)
    : merge_state * option exn :=
  match fields with
  | [] => (st, None)
  | field :: rest =>
      match merge_field getTemplateInfo st field with
      | (st', None) => merge_fields getTemplateInfo st' rest
      | raised => raised
      end
  end.

(** ** The run: requests, output, and [main] *)

Record Args : Type :=
  { debug : bool;
    index : string;
    dashboardsUrl : string;
    opensearchUrl : string;
    template : option string;
    dryrun : bool }.

Record response : Type :=
  { status_code : Z;
    body : option json }.         (* what [.json()] decodes; [None] when it raises *)

Inductive reply : Type :=
| Fails (what : string)           (* the call itself raises *)
| Replies (r : response).

(** What the environment does at each call site, in program order. *)
Record world : Type :=
  { on_status : reply;            (* line 66 *)
    on_opensearch : reply;        (* line 73 *)
    on_find : reply;              (* line 80 *)
    on_fields : reply;            (* line 97 *)
    on_template : reply;          (* line 109 *)
    on_put : reply }.             (* line 274 *)

(** The body of the write: [fields] and [fieldFormatMap] travel as the
    [json.dumps] of these two values. *)
Record IndexPatternUpdate : Type :=
  { title : string;
    fields : json;
    fieldFormatMap : gmap string DrilldownInfo }.

Inductive request : Type :=
| Get (url : string) (params : list (string * json))
| Put (url_prefix : string) (indexId : json)     (* the URL ends in str(indexId) *)
      (headers : list (string * json)) (data : IndexPatternUpdate).

Definition is_put (r : request) : bool :=
  match r with Put _ _ _ _ => true | Get _ _ => false end.

Inductive log : Type :=
| LogScriptPath
| LogArgv
| LogArgs (args : Args)
| LogDashboardsVersion (v : json)
| LogOpenSearchVersion (v : json)
| LogIndexId (index : string) (indexId : json)
| LogFieldCount (index : string) (n : nat)
| LogSkipMerge (e : exn) (template : string).

Inductive event : Type :=
| Sent (r : request)
| Stdout (line : string)
| Stderr (line : log).

(** A computation writes events and either returns or raises. *)
Definition M (A : Type) : Type := (list event * result A)%type.

Definition ret {A : Type} (a : A) : M A := ([], Ok a).

Definition bind {A B : Type} (m : M A) (f : A -> M B) : M B :=
  match m with
  | (t, Ok a) => let (t', r) := f a in (t ++ t', r)
  | (t, Raise e) => (t, Raise e)
  end.

Declare Scope run_scope.
Delimit Scope run_scope with run.
Notation "'let*' x := m 'in' k" := (bind m (fun x => k))
  (at level 10, x name, m at level 100, k at level 200) : run_scope.
Local Open Scope run_scope.

Definition lift {A : Type} (r : result A) : M A := ([], r).
Definition emit (e : event) : M unit := ([e], Ok tt).
Definition print (line : string) : M unit := emit (Stdout line).
Definition eprint (line : log) : M unit := emit (Stderr line).
Definition when (b : bool) (m : M unit) : M unit := if b then m else ret tt.

(** [requests.get] / [requests.put]: the call is recorded with its request,
    then it returns the response or raises. *)
Definition send (rq : request) (rp : reply) : M response :=
  ([Sent rq],
   match rp with
   | Fails what => Raise (RequestException what)
   | Replies r => Ok r
   end).

Definition raise_for_status (r : response) : M unit :=
  if (400 <=? status_code r) && (status_code r <? 600)
  then lift (Raise (HTTPError (status_code r)))
  else ret tt.

Definition json_of (r : response) : M json :=
  match body r with
  | Some j => ret j
  | None => lift (Raise JSONDecodeError)
  end.

(** [c['k']] *)
Definition item (c : json) (k : string) : M json := lift (Py.getitem c (JStr k)).

Definition GET_STATUS_API : string := "api/status".
Definition GET_INDEX_PATTERN_INFO_URI : string := "api/saved_objects/_find".
Definition GET_FIELDS_URI : string := "api/index_patterns/_fields_for_wildcard".
Definition PUT_INDEX_PATTERN_URI : string := "api/saved_objects/index-pattern".
Definition OS_GET_TEMPLATE_URI : string := "_template".

(** The six requests, as the script builds them. *)
Definition status_request (args : Args) : request :=
  Get (dashboardsUrl args +:+ "/" +:+ GET_STATUS_API) [].

Definition opensearch_request (args : Args) : request :=
  Get (opensearchUrl args) [].

Definition find_request (args : Args) : request :=
  Get (dashboardsUrl args +:+ "/" +:+ GET_INDEX_PATTERN_INFO_URI)
      [("type", JStr "index-pattern");
       ("fields", JStr "id");
       ("search", JStr (PyStr.quote +:+ index args +:+ PyStr.quote))].

Definition fields_request (args : Args) : request :=
  Get (dashboardsUrl args +:+ "/" +:+ GET_FIELDS_URI)
      [("pattern", JStr (index args));
       ("meta_fields", JArr (map JStr ["_source"; "_id"; "_type"; "_index"; "_score"]))].

Definition template_request (args : Args) (name : string) : request :=
  Get (opensearchUrl args +:+ "/" +:+ OS_GET_TEMPLATE_URI +:+ "/" +:+ name) [].

Definition put_request (args : Args) (dashboardsVersion indexId : json)
    (putIndexInfo : IndexPatternUpdate) : request :=
  Put (dashboardsUrl args +:+ "/" +:+ PUT_INDEX_PATTERN_URI +:+ "/") indexId
      [("Content-Type", JStr "application/json");
       ("osd-xsrf", JStr "true");
       ("osd-version", dashboardsVersion)]
      putIndexInfo.

(** Line 102: [[field['name'] for field in getFieldsList if 'name' in field]]. *)
Fixpoint names_of (fields : list json) : result (list json) :=
  match fields with
  | [] => Ok []
  | field :: rest =>
      match Py.contains "name" field with
      | Raise e => Raise e
      | Ok false => names_of rest
      | Ok true =>
          match Py.getitem field (JStr "name") with
          | Raise e => Raise e
          | Ok name =>
              match names_of rest with
              | Ok names => Ok (name :: names)
              | Raise e => Raise e
              end
          end
      end
  end.

(** Lines 109-111: fetch the template and pull out its field declarations. *)
Definition fetch_template (args : Args) (w : world) (name : string) : M json :=
  let* getTemplateResponse :=
    send (template_request args name) (on_template w) in
  let* _ := raise_for_status getTemplateResponse in
  let* decoded := json_of getTemplateResponse in
  let* entry := item decoded name in
  let* mappings := item entry "mappings" in
  item mappings "properties".

(** Lines 105-146: the [try] block and its handler.  Whatever the loop did
    to the two lists before an exception stays done. *)
Definition template_merge (args : Args) (w : world) (name : string) (st : merge_state)
    : M merge_state :=
  match fetch_template args w name with
  | (t, Raise e) => (t ++ [Stderr (LogSkipMerge e name)], Ok st)
  | (t, Ok getTemplateInfo) =>
      match Py.iter getTemplateInfo with
      | Raise e => (t ++ [Stderr (LogSkipMerge e name)], Ok st)
      | Ok keys =>
          match merge_fields getTemplateInfo st keys with
          | (st', None) => (t, Ok st')
          | (st', Some e) => (t ++ [Stderr (LogSkipMerge e name)], Ok st')
          end
      end
  end.

(** Lines 96-271: everything between the pattern lookup and the write. *)
Definition prepare (args : Args) (w : world) : M IndexPatternUpdate :=
  let* getFieldsResponse :=
    send (fields_request args) (on_fields w) in
  let* _ := raise_for_status getFieldsResponse in
  let* decoded := json_of getFieldsResponse in
  let* getFieldsList0 := item decoded "fields" in
  let* listed := lift (Py.iter getFieldsList0) in
  let* fieldsNames0 := lift (names_of listed) in
  let st0 := {| fieldsNames := fieldsNames0; getFieldsList := getFieldsList0 |} in
  let* st :=
    match template args with
    | Some name => template_merge args w name st0
    | None => ret st0
    end in
  let* _ :=
    if debug args then
      let* n := lift (Py.len (getFieldsList st)) in
      eprint (LogFieldCount (index args) n)
    else ret tt in
  let* formats := lift (build_fieldFormatMap (getFieldsList st)) in
  ret {| title := index args;
         fields := getFieldsList st;
         fieldFormatMap := formats |}.

(** Lines 65-77: the version probe; returns [dashboardsVersion]. *)
Definition probe (args : Args) (w : world) : M json :=
  (* lines 66-71 *)
  let* statusInfoResponse := send (status_request args) (on_status w) in
  let* _ := raise_for_status statusInfoResponse in
  let* statusInfo := json_of statusInfoResponse in
  let* version := item statusInfo "version" in
  let* dashboardsVersion := item version "number" in
  let* _ := when (debug args) (eprint (LogDashboardsVersion dashboardsVersion)) in
  (* lines 73-77: the response of line 73 is not looked at again *)
  let* opensearchInfoResponse := send (opensearch_request args) (on_opensearch w) in
  let* opensearchInfo := json_of statusInfoResponse in
  let* version' := item statusInfo "version" in
  let* opensearchVersion := item version' "number" in
  let* _ := when (debug args) (eprint (LogOpenSearchVersion opensearchVersion)) in
  ret dashboardsVersion.

(** Lines 79-92: the pattern lookup; returns [indexId], [JNull] for [None]. *)
Definition lookup (args : Args) (w : world) : M json :=
  let* getIndexInfoResponse := send (find_request args) (on_find w) in
  let* _ := raise_for_status getIndexInfoResponse in
  let* getIndexInfo := json_of getIndexInfoResponse in
  let* saved := item getIndexInfo "saved_objects" in
  let* count := lift (Py.len saved) in
  let* indexId :=
    if Nat.ltb 0 count then
      let* saved' := item getIndexInfo "saved_objects" in
      let* first := lift (Py.getitem saved' (JNum 0)) in
      item first "id"
    else ret JNull in
  let* _ := when (debug args) (eprint (LogIndexId (index args) indexId)) in
  ret indexId.

Definition resolve (args : Args) (w : world) : M (json * json) :=
  let* dashboardsVersion := probe args w in
  let* indexId := lookup args w in
  ret (dashboardsVersion, indexId).

(** Lines 273-279: the write, unless this is a dry run. *)
Definition write_back (args : Args) (w : world) (dashboardsVersion indexId : json)
    (putIndexInfo : IndexPatternUpdate) : M unit :=
  if negb (dryrun args) then
    let* putResponse :=
      send (put_request args dashboardsVersion indexId putIndexInfo) (on_put w) in
    raise_for_status putResponse
  else ret tt.

Definition main (args : Args) (w : world) : M unit :=
  let* _ :=
    when (debug args)
      (let* _ := eprint LogScriptPath in
       let* _ := eprint LogArgv in
       eprint (LogArgs args)) in
  let* resolved := resolve args w in
  let dashboardsVersion := fst resolved in
  let indexId := snd resolved in
  match indexId with
  | JNull => print ("failure (could not find Index ID for " +:+ index args +:+ ")")
  | _ =>
      let* putIndexInfo := prepare args w in
      let* _ := write_back args w dashboardsVersion indexId putIndexInfo in
      if dryrun args
      then print "success (dry run only, no write performed)"
      else print "success"
  end.

(** The process exit status: 0 when [main] returns, 1 when an exception
    escapes it. *)
Definition exit_status (run : M unit) : Z :=
  match run with
  | (_, Ok _) => 0
  | (_, Raise _) => 1
  end.

Definition events {A : Type} (run : M A) : list event := fst run.

Definition requests_of (t : list event) : list request :=
  omap (fun e => match e with Sent r => Some r | _ => None end) t.

Definition stdout_of (t : list event) : list string :=
  omap (fun e => match e with Stdout s => Some s | _ => None end) t.

(** The updates written by the [PUT] requests of a trace. *)
Definition written (t : list event) : list IndexPatternUpdate :=
  omap (fun e => match e with Sent (Put _ _ _ u) => Some u | _ => None end) t.

Definition stderr_of (t : list event) : list log :=
  omap (fun e => match e with Stderr l => Some l | _ => None end) t.

(** ** The drilldown rules in the words of the specification

    An ordered table of categories, each with the test that selects it and
    the links it contributes; a field gets the links of the first category
    whose test it passes. *)

Module Spec.

Inductive category : Type :=
| IpReputation
| HashReputation
| WebSearch
| PortRegistry
| ServiceRegistry
| ProtocolRegistry
| AsnRegistry
| MediaType
| ExtractedFile.

Definition rule_order : list category :=
  [IpReputation; HashReputation; WebSearch; PortRegistry; ServiceRegistry;
   ProtocolRegistry; AsnRegistry; MediaType; ExtractedFile].

Definition applies (name : string) (type : json) (c : category) : bool :=
  match c with
  | IpReputation => Py.eq type (JStr "ip") || Re.search Pat.ip_host name
  | HashReputation => Re.search Pat.hash name
  | WebSearch => Re.search Pat.hit_signature name
  | PortRegistry => Re.search Pat.port name
  | ServiceRegistry => Re.search Pat.protocol name
  | ProtocolRegistry => Re.search Pat.transport name
  | AsnRegistry => Re.search Pat.asn name
  | MediaType => Re.search Pat.mime name
  | ExtractedFile => Re.search Pat.extracted name
  end.

Definition links (c : category) : list UrlTemplate :=
  match c with
  | IpReputation => [Link.virustotal_ip]
  | HashReputation => [Link.virustotal_hash]
  | WebSearch => [Link.web_search]
  | PortRegistry => [Link.port_registry]
  | ServiceRegistry => [Link.service_registry]
  | ProtocolRegistry => [Link.protocol_registry]
  | AsnRegistry => [Link.arin_asn]
  | MediaType => [Link.media_type]
  | ExtractedFile => [Link.download_quarantined; Link.download_preserved]
  end.

Definition first_match (name : string) (type : json) : option category :=
  List.find (applies name type) rule_order.

Definition extra_links (name : string) (type : json) : list UrlTemplate :=
  match first_match name type with
  | Some c => links c
  | None => []
  end.

(** The entry of the format map with the given link list. *)
Definition entry (templates : list (option UrlTemplate)) : DrilldownInfo :=
  {| info_id := "drilldown"; params := {| urlTemplates := templates |} |}.

(** The loop stores [d] under [name] when it reaches [field], and [d] is
    the entry of the finished map whenever no later field of the list has
    the same name. *)
Definition stores (field : json) (name : string) (d : DrilldownInfo) : Prop :=
  (forall m, format_field m field = Ok (<[name := d]> m)) /\
  (forall before after fm,
      Forall (fun g => Py.getitem g (JStr "name") <> Ok (JStr name)) after ->
      build_fieldFormatMap (JArr (before ++ field :: after)) = Ok fm ->
      fm !! name = Some d).

End Spec.

(** A field as the fields-for-wildcard endpoint lists it, cut down to the two
    keys the drilldown rules read. *)
Definition field (name type : string) : json :=
  JObj [("name", JStr name); ("type", JStr type)].

(** ** The template merge in the words of the specification *)

Module MergeSpec.

Definition allow_list : list string :=
  ["date"; "float"; "integer"; "ip"; "keyword"; "long"; "short"; "text"].

Definition mem (s : string) (l : list string) : bool := existsb (String.eqb s) l.

(** The low-level type a template entry declares, if it declares one. *)
Definition declared_type (entry : json) : option string :=
  match entry with
  | JObj kv =>
      match Py.dict_get "type" kv with
      | Some (JStr t) => Some t
      | _ => None
      end
  | _ => None
  end.

(** [k] is the name of a field already listed. *)
Definition present (k : string) (names : list json) : bool :=
  existsb (fun n => match n with JStr s => String.eqb k s | _ => false end) names.

Definition mergeable (names : list json) (p : string * json) : bool :=
  negb (present (fst p) names) &&
  match declared_type (snd p) with
  | Some t => mem t allow_list
  | None => false
  end.

Definition semantic_type (t : string) : string :=
  if mem t ["float"; "integer"; "long"; "short"] then "number"
  else if mem t ["keyword"; "text"] then "string"
  else t.

Definition aggregatable (t : string) : bool := negb (String.eqb t "text").

Definition descriptor (k t : string) : json :=
  JObj [("name", JStr k);
        ("esTypes", JArr [JStr t]);
        ("type", JStr (semantic_type t));
        ("searchable", JBool true);
        ("aggregatable", JBool (aggregatable t));
        ("readFromDocValues", JBool (aggregatable t))].

Definition descriptor_of (p : string * json) : json :=
  match declared_type (snd p) with
  | Some t => descriptor (fst p) t
  | None => JNull
  end.

End MergeSpec.

(** ** Concrete runs *)

Module Scenario.

Definition ok (j : json) : reply := Replies {| status_code := 200; body := Some j |}.

Definition args : Args :=
  {| debug := false;
     index := "test-*";
     dashboardsUrl := "http://dashboards:5601/dashboards";
     opensearchUrl := "http://opensearch:9200";
     template := None;
     dryrun := false |}.

Definition with_template (name : string) (a : Args) : Args :=
  {| debug := debug a; index := index a; dashboardsUrl := dashboardsUrl a;
     opensearchUrl := opensearchUrl a; template := Some name; dryrun := dryrun a |}.

Definition template_doc (name : string) (properties : json) : json :=
  JObj [(name, JObj [("mappings", JObj [("properties", properties)])])].

Definition properties : list (string * json) :=
  [("http.status_code", JObj [("type", JStr "long")]);
   ("source.ip", JObj [("type", JStr "ip")]);
   ("message", JObj [("type", JStr "text")]);
   ("geo", JObj [("type", JStr "geo_point")])].

(** Index [test-*] resolves to [abc123] and has the one live field
    source.ip; the template [tmpl] declares four fields. *)
Definition base : world :=
  {| on_status := ok (JObj [("version", JObj [("number", JStr "2.11.0")])]);
     on_opensearch := ok (JObj [("version", JObj [("number", JStr "2.11.1")])]);
     on_find := ok (JObj [("saved_objects", JArr [JObj [("id", JStr "abc123")]])]);
     on_fields := ok (JObj [("fields", JArr [field "source.ip" "ip"])]);
     on_template := ok (template_doc "tmpl" (JObj properties));
     on_put := ok (JObj []) |}.

Definition with_find (r : reply) (w : world) : world :=
  {| on_status := on_status w; on_opensearch := on_opensearch w; on_find := r;
     on_fields := on_fields w; on_template := on_template w; on_put := on_put w |}.

Definition with_template_reply (r : reply) (w : world) : world :=
  {| on_status := on_status w; on_opensearch := on_opensearch w; on_find := on_find w;
     on_fields := on_fields w; on_template := r; on_put := on_put w |}.

(** The lookup finds no saved object. *)
Definition no_pattern : world :=
  with_find (ok (JObj [("saved_objects", JArr [])])) base.

(** A template whose second declaration is [null]. *)
Definition malformed : world :=
  with_template_reply
    (ok (template_doc "tmpl"
           (JObj [("a", JObj [("type", JStr "keyword")]);
                  ("b", JNull);
                  ("c", JObj [("type", JStr "long")])])))
    base.

(** A template whose declarations come as a list. *)
Definition listed : world :=
  with_template_reply
    (ok (template_doc "tmpl" (JArr [JNum 1; JObj [("type", JStr "keyword")]])))
    base.

End Scenario.

(** The same arguments with the dry-run flag set to [b]. *)
Definition with_dryrun (b : bool) (a : Args) : Args :=
  {| debug := debug a; index := index a; dashboardsUrl := dashboardsUrl a;
     opensearchUrl := opensearchUrl a; template := template a; dryrun := b |}.

(** The same world with another answer to the request of line 73. *)
Definition with_opensearch (r : reply) (w : world) : world :=
  {| on_status := on_status w; on_opensearch := r; on_find := on_find w;
     on_fields := on_fields w; on_template := on_template w; on_put := on_put w |}.

(** ** Bookkeeping on runs *)

(** [Issues m l]: a run of [m] that returns has sent exactly [l]; one that
    raises has sent the first few requests of [l]. *)
Definition Issues {A : Type} (m : M A) (l : list request) : Prop :=
  match m with
  | (t, Ok _) => requests_of t = l
  | (t, Raise _) => requests_of t `prefix_of` l
  end.

(** [Never b m]: no event of [m] is one that [b] picks out. *)
Definition Never {A : Type} (b : event -> bool) (m : M A) : Prop :=
  Forall (fun e => b e = false) (events m).

Definition is_stdout (e : event) : bool :=
  match e with Stdout _ => true | _ => false end.

Definition is_version_line (e : event) : bool :=
  match e with Stderr (LogOpenSearchVersion _) => true | _ => false end.

Definition template_requests (args : Args) : list request :=
  match template args with
  | Some name => [template_request args name]
  | None => []
  end.

Definition put_requests (args : Args) (dashboardsVersion indexId : json)
    (putIndexInfo : IndexPatternUpdate) : list request :=
  if dryrun args then [] else [put_request args dashboardsVersion indexId putIndexInfo].

(** What a complete run sends, given the version, the identifier and the
    update it writes. *)
Definition all_requests (args : Args) (dashboardsVersion indexId : json)
    (putIndexInfo : IndexPatternUpdate) : list request :=
  [status_request args; opensearch_request args; find_request args; fields_request args]
  ++ template_requests args ++ put_requests args dashboardsVersion indexId putIndexInfo.

(** What lines 58-61 write in verbose mode. *)
Definition header (args : Args) : list event :=
  if debug args
  then [Stderr LogScriptPath; Stderr LogArgv; Stderr (LogArgs args)]
  else [].

Definition success_line (args : Args) : string :=
  if dryrun args then "success (dry run only, no write performed)" else "success".

Definition failure_line (args : Args) : string :=
  "failure (could not find Index ID for " +:+ index args +:+ ")".

(** ** Command-line booleans (lines 30-36) *)

Module Cli.

(** [str.lower] on one code point below 256: the capital letters of ASCII
    and of Latin-1 move up by 32, everything else stays. *)
Definition lower_char (c : ascii) : ascii :=
  if PyStr.between 65 90 c || PyStr.between 192 214 c || PyStr.between 216 222 c
  then ascii_of_N (PyStr.code c + 32)
  else c.

Fixpoint lower (s : string) : string :=
  match s with
  | EmptyString => EmptyString
  | String c s' => String (lower_char c) (lower s')
  end.

Definition truthy : list string := ["yes"; "true"; "t"; "y"; "1"].
Definition falsy : list string := ["no"; "false"; "f"; "n"; "0"].

(** [str2bool]: the boolean, or the message of the [ArgumentTypeError]. *)
Definition str2bool (v : string) : bool + string :=
  if existsb (String.eqb (lower v)) truthy then inl true
  else if existsb (String.eqb (lower v)) falsy then inl false
  else inr "Boolean value expected.".

End Cli.

(** A name with its ASCII capitals made small, which is all that
    [re.IGNORECASE] looks at in the patterns of the script. *)
Fixpoint ascii_fold (s : string) : string :=
  match s with
  | EmptyString => EmptyString
  | String c s' => String (PyStr.lower_char c) (ascii_fold s')
  end.

(** The same arguments without [--template]. *)
Definition without_template (a : Args) : Args :=
  {| debug := debug a; index := index a; dashboardsUrl := dashboardsUrl a;
     opensearchUrl := opensearchUrl a; template := None; dryrun := dryrun a |}.

(** The lines of [eprint] other than the notice of a skipped merge. *)
Definition is_verbose_line (e : event) : bool :=
  match e with
  | Stderr (LogSkipMerge _ _) => false
  | Stderr _ => true
  | _ => false
  end.

(** * Properties *)

(** ** Python equality against a string constant *)

Lemma py_eq_str (j : json) (s : string) : Py.eq j (JStr s) = true <-> j = JStr s.
Proof.
  destruct j; simpl; split; try discriminate; try congruence.
  - intros H. apply String.eqb_eq in H. by subst.
  - intros [= ->]. apply String.eqb_refl.
Qed.

Lemma py_eq_str_false (j : json) (s : string) : j <> JStr s -> Py.eq j (JStr s) = false.
Proof.
  intros H. destruct (Py.eq j (JStr s)) eqn:E; [|done].
  by apply py_eq_str in E.
Qed.

(** ** The format map *)

Section FormatMap.

Implicit Types (m fm : gmap string DrilldownInfo) (f g : json) (n name : string).

Lemma format_field_alpha m f name type :
  Py.getitem f (JStr "name") = Ok (JStr name) ->
  Py.getitem f (JStr "type") = Ok type ->
  PyStr.head_isalpha name = true ->
  format_field m f = Ok (<[name := drilldownInfo name type]> m).
Proof. intros Hn Ht Ha. unfold format_field. by rewrite Hn, Ha, Ht. Qed.

(** A turn of the loop leaves every other key alone, and only ever writes a
    key that starts with a letter. *)
Lemma format_field_other m f fm n :
  format_field m f = Ok fm ->
  Py.getitem f (JStr "name") <> Ok (JStr n) ->
  fm !! n = m !! n.
Proof.
  unfold format_field. intros H Hn.
  destruct (Py.getitem f (JStr "name")) as [[| | |s| |]|]; try discriminate.
  destruct (PyStr.head_isalpha s); [|by injection H as <-].
  destruct (Py.getitem f (JStr "type")); [|discriminate].
  injection H as <-. apply lookup_insert_ne. congruence.
Qed.

Lemma format_field_keys m f fm n :
  format_field m f = Ok fm ->
  is_Some (fm !! n) -> is_Some (m !! n) \/ PyStr.head_isalpha n = true.
Proof.
  unfold format_field. intros H Hs.
  destruct (Py.getitem f (JStr "name")) as [[| | |s| |]|]; try discriminate.
  destruct (PyStr.head_isalpha s) eqn:Ha; [|injection H as <-; by left].
  destruct (Py.getitem f (JStr "type")); [|discriminate].
  injection H as <-.
  destruct (decide (s = n)) as [->|Hne]; [by right|].
  left. by rewrite lookup_insert_ne in Hs.
Qed.

Lemma format_fields_other fs : forall m fm n,
  format_fields m fs = Ok fm ->
  Forall (fun g => Py.getitem g (JStr "name") <> Ok (JStr n)) fs ->
  fm !! n = m !! n.
Proof.
  induction fs as [|g fs IH]; simpl; intros m fm n H Hall.
  - by injection H as <-.
  - destruct (format_field m g) as [m1|] eqn:E; [|discriminate].
    inversion Hall; subst.
    rewrite (IH _ _ _ H); [|done]. by eapply format_field_other.
Qed.

Lemma format_fields_keys fs : forall m fm n,
  format_fields m fs = Ok fm ->
  is_Some (fm !! n) -> is_Some (m !! n) \/ PyStr.head_isalpha n = true.
Proof.
  induction fs as [|g fs IH]; simpl; intros m fm n H Hs.
  - injection H as <-. by left.
  - destruct (format_field m g) as [m1|] eqn:E; [|discriminate].
    destruct (IH _ _ _ H Hs) as [H1|]; [|by right].
    by eapply format_field_keys.
Qed.

Lemma format_fields_app before : forall after m fm,
  format_fields m (before ++ after) = Ok fm ->
  exists m1, format_fields m before = Ok m1 /\ format_fields m1 after = Ok fm.
Proof.
  induction before as [|g before IH]; simpl; intros after m fm H.
  - by exists m.
  - destruct (format_field m g) as [m1|]; [|discriminate]. by apply IH.
Qed.

Lemma stores_drilldownInfo f name type :
  Py.getitem f (JStr "name") = Ok (JStr name) ->
  Py.getitem f (JStr "type") = Ok type ->
  PyStr.head_isalpha name = true ->
  Spec.stores f name (drilldownInfo name type).
Proof.
  intros Hn Ht Ha. split.
  - intros m. by apply format_field_alpha.
  - intros before after fm Hafter Hb. unfold build_fieldFormatMap in Hb. simpl in Hb.
    apply format_fields_app in Hb as (m1 & _ & H2). simpl in H2.
    rewrite (format_field_alpha m1 f name type Hn Ht Ha) in H2.
    rewrite (format_fields_other _ _ _ _ H2 Hafter). apply lookup_insert_eq.
Qed.

End FormatMap.

(** ** The rule chain against the rule table *)

Lemma templates_first_match (name : string) (type : json) :
  drilldownInfoParamsUrlTemplates name type
  = None :: Some (Link.base name type) :: map Some (Spec.extra_links name type).
Proof.
  unfold drilldownInfoParamsUrlTemplates, Spec.extra_links, Spec.first_match.
  cbn [Spec.rule_order List.find Spec.applies].
  repeat match goal with
         | |- context [if ?b then _ else _] => destruct b
         end; reflexivity.
Qed.

Lemma base_is_no_category_link (name : string) (type : json) (c : Spec.category) :
  ~ In (Link.base name type) (Spec.links c).
Proof.
  unfold Link.base. destruct c; simpl; intros H;
    repeat (destruct H as [H|H]); try contradiction;
    vm_compute in H; discriminate H.
Qed.

Lemma category_links_disjoint (c c' : Spec.category) (t : UrlTemplate) :
  In t (Spec.links c) -> In t (Spec.links c') -> c = c'.
Proof.
  destruct c, c'; simpl; intros H H'; try reflexivity;
    repeat (destruct H as [H|H]); try contradiction; subst t;
    repeat (destruct H' as [H'|H']); try contradiction;
    vm_compute in H'; discriminate H'.
Qed.

(** ** Claims about the drilldown map *)

(** C1. A field whose name starts with a letter gets the placeholder and the
    base link, followed by the links of exactly one category or of none: the
    first category, in the order IP/host or ip type, hash, hit/signature,
    port, protocol, transport protocol, AS number, MIME type, extracted
    file, whose test the field passes.  A link of a category is in the
    list if and only if that category is the first match. *)
Theorem first_matching_category_only (f : json) (name : string) (type : json) :
  Py.getitem f (JStr "name") = Ok (JStr name) ->
  Py.getitem f (JStr "type") = Ok type ->
  PyStr.head_isalpha name = true ->
  let templates :=
    None :: Some (Link.base name type) :: map Some (Spec.extra_links name type) in
  Spec.stores f name (Spec.entry templates) /\
  (forall c t, In t (Spec.links c) ->
     In (Some t) templates <-> Spec.first_match name type = Some c).
Proof.
  intros Hn Ht Ha templates. split.
  - unfold templates, Spec.entry. rewrite <- templates_first_match.
    by apply stores_drilldownInfo.
  - intros c t Hc. unfold templates, Spec.extra_links. split.
    + intros [H|[H|H]]; [discriminate H| |].
      * injection H as <-. by apply base_is_no_category_link in Hc.
      * apply in_map_iff in H as (t' & [= ->] & Hin).
        destruct (Spec.first_match name type) as [c'|]; [|contradiction].
        f_equal. by eapply category_links_disjoint.
    + intros ->. right. right. by apply in_map.
Qed.

Lemma first_matching_category_only_witness :
  Spec.stores (field "srcport" "long") "srcport"
    (Spec.entry [None; Some (Link.base "srcport" (JStr "long")); Some Link.port_registry]).
Proof.
  exact (proj1 (first_matching_category_only (field "srcport" "long") "srcport"
                  (JStr "long") eq_refl eq_refl eq_refl)).
Defined.

(** C3, as stated, fails twice: a field named by a hash algorithm whose type
    is ip gets the IP-reputation link, and one whose name starts with an
    underscore gets no entry. *)
Lemma hash_name_alone_does_not_give_hash_link :
  (Re.search Pat.hash "md5" = true /\ Re.search Pat.ip_host "md5" = false /\
   exists fm, build_fieldFormatMap (JArr [field "md5" "ip"]) = Ok fm /\
     fm !! "md5" = Some (Spec.entry [None; Some (Link.base "md5" (JStr "ip"));
                                       Some Link.virustotal_ip]) /\
     fm !! "md5" <> Some (Spec.entry [None; Some (Link.base "md5" (JStr "ip"));
                                        Some Link.virustotal_hash])) /\
  (Re.search Pat.hash "_md5" = true /\ Re.search Pat.ip_host "_md5" = false /\
   exists fm, build_fieldFormatMap (JArr [field "_md5" "keyword"]) = Ok fm /\
     fm !! "_md5" = None).
Proof.
  split; (split; [reflexivity|split; [reflexivity|]]); eexists; (split; [reflexivity|]).
  - split; [by vm_compute|]. vm_compute. discriminate.
  - by vm_compute.
Qed.

(** C3, amended. A field whose name starts with a letter and matches the
    hash-algorithm pattern but not the IP/host pattern, and whose type is
    not ip, gets the placeholder followed by exactly two links: the base
    link and the hash-reputation link. *)
Theorem hash_field_links (f : json) (name : string) (type : json) :
  Py.getitem f (JStr "name") = Ok (JStr name) ->
  Py.getitem f (JStr "type") = Ok type ->
  PyStr.head_isalpha name = true ->
  Re.search Pat.hash name = true ->
  Re.search Pat.ip_host name = false ->
  type <> JStr "ip" ->
  Spec.stores f name
    (Spec.entry [None; Some (Link.base name type); Some Link.virustotal_hash]).
Proof.
  intros Hn Ht Ha Hh Hi Hip.
  replace (Spec.entry _) with (drilldownInfo name type);
    [by apply stores_drilldownInfo|].
  unfold drilldownInfo, Spec.entry, drilldownInfoParamsUrlTemplates.
  by rewrite (py_eq_str_false _ _ Hip), Hi, Hh.
Qed.

Lemma hash_field_links_witness :
  Spec.stores (field "file.sha256" "keyword") "file.sha256"
    (Spec.entry [None; Some (Link.base "file.sha256" (JStr "keyword"));
                 Some Link.virustotal_hash]).
Proof.
  apply (hash_field_links (field "file.sha256" "keyword") "file.sha256" (JStr "keyword"));
    [reflexivity|reflexivity|reflexivity|reflexivity|reflexivity|discriminate].
Defined.

(** C4. For a field whose name starts with a letter, the URL of the base
    link is the name behind [db:], or the bare name when it starts with
    [zeek], and the value is between double quotes exactly when the type is
    the string [string].  The field source.ip of type ip gets the unquoted
    [db:source.ip == {{value}}] followed by the VirusTotal IP link. *)
Theorem base_link_prefix_and_quotes (f : json) (name : string) (type : json) :
  Py.getitem f (JStr "name") = Ok (JStr name) ->
  Py.getitem f (JStr "type") = Ok type ->
  PyStr.head_isalpha name = true ->
  (exists dbPrefix q more,
      (PyStr.startswith "zeek" name = true /\ dbPrefix = "" \/
       PyStr.startswith "zeek" name = false /\ dbPrefix = "db:") /\
      (type = JStr "string" /\ q = PyStr.quote \/ type <> JStr "string" /\ q = "") /\
      Spec.stores f name
        (Spec.entry
           (None ::
            Some {| url := "/idkib2ark/" +:+ dbPrefix +:+ name +:+ " == "
                             +:+ q +:+ "{{value}}" +:+ q;
                    label := "Arkime " +:+ name +:+ ": " +:+ q +:+ "{{value}}" +:+ q |}
            :: more))) /\
  (exists fm,
      build_fieldFormatMap (JArr [field "source.ip" "ip"]) = Ok fm /\
      fm !! "source.ip" =
        Some (Spec.entry
                [None;
                 Some {| url := "/idkib2ark/db:source.ip == {{value}}";
                         label := "Arkime source.ip: {{value}}" |};
                 Some {| url := "https://www.virustotal.com/en/ip-address/{{value}}/information/";
                         label := "VirusTotal IP: {{value}}" |}])).
Proof.
  intros Hn Ht Ha. split.
  - exists (if PyStr.startswith "zeek" name then "" else "db:"),
           (if Py.eq type (JStr "string") then PyStr.quote else ""),
           (map Some (Spec.extra_links name type)).
    split; [destruct (PyStr.startswith "zeek" name); auto|].
    split.
    + destruct (Py.eq type (JStr "string")) eqn:E.
      * left. by apply py_eq_str in E.
      * right. split; [|done]. intros ->. simpl in E. discriminate.
    + pose proof (stores_drilldownInfo f name type Hn Ht Ha) as Hs.
      unfold drilldownInfo in Hs. rewrite templates_first_match in Hs. exact Hs.
  - eexists. split; [reflexivity|]. by vm_compute.
Qed.

Lemma base_link_prefix_and_quotes_witness :
  exists more,
    Spec.stores (field "zeek.conn.state" "string") "zeek.conn.state"
      (Spec.entry
         (None ::
          Some {| url := "/idkib2ark/zeek.conn.state == "
                           +:+ PyStr.quote +:+ "{{value}}" +:+ PyStr.quote;
                  label := "Arkime zeek.conn.state: "
                           +:+ PyStr.quote +:+ "{{value}}" +:+ PyStr.quote |}
          :: more)).
Proof.
  destruct (proj1 (base_link_prefix_and_quotes (field "zeek.conn.state" "string")
                     "zeek.conn.state" (JStr "string") eq_refl eq_refl eq_refl))
    as (dbPrefix & q & more & Hdb & Hq & Hs).
  exists more.
  destruct Hdb as [[_ ->]|[Hz _]]; [|discriminate Hz].
  destruct Hq as [[_ ->]|[Hn _]]; [exact Hs|by destruct Hn].
Defined.

(** C9. No key of the finished format map starts with anything but a
    letter: a field whose name does not start with a letter, the empty name
    included, has no entry. *)
Theorem non_alphabetic_name_has_no_entry (getFieldsList : json)
    (fm : gmap string DrilldownInfo) :
  build_fieldFormatMap getFieldsList = Ok fm ->
  (forall name, PyStr.head_isalpha name = false -> fm !! name = None) /\
  fm !! "" = None.
Proof.
  intros Hb.
  assert (forall name, PyStr.head_isalpha name = false -> fm !! name = None) as H.
  { intros name Ha. unfold build_fieldFormatMap in Hb.
    destruct (Py.iter getFieldsList) as [fs|]; [|discriminate].
    destruct (fm !! name) as [d|] eqn:E; [|done].
    destruct (format_fields_keys fs ∅ fm name Hb) as [[? Hm]|Hm]; [by eexists| |].
    - by rewrite lookup_empty in Hm.
    - congruence. }
  split; [exact H|]. by apply H.
Qed.

Lemma non_alphabetic_name_has_no_entry_witness :
  exists fm,
    build_fieldFormatMap (JArr [field "_id" "string"; field "" "string";
                                field "source.ip" "ip"]) = Ok fm /\
    fm !! "_id" = None /\ fm !! "" = None /\ is_Some (fm !! "source.ip").
Proof.
  eexists. split; [reflexivity|].
  pose proof (non_alphabetic_name_has_no_entry
                (JArr [field "_id" "string"; field "" "string"; field "source.ip" "ip"])
                _ eq_refl) as [H1 H2].
  split; [exact (H1 "_id" eq_refl)|]. split; [exact H2|].
  vm_compute. eauto.
Defined.

(** ** What a computation sends *)

Section Requests.

Lemma requests_of_app (t1 t2 : list event) :
  requests_of (t1 ++ t2) = requests_of t1 ++ requests_of t2.
Proof. apply omap_app. Qed.

Lemma requests_of_sent (t : list event) (r : request) :
  In (Sent r) t -> In r (requests_of t).
Proof.
  intros H. apply list_elem_of_In, list_elem_of_omap.
  exists (Sent r). split; [by apply list_elem_of_In|done].
Qed.

Lemma Issues_prefix {A : Type} (m : M A) (l : list request) :
  Issues m l -> requests_of (events m) `prefix_of` l.
Proof. destruct m as [t [a|e]]; simpl; [by intros ->|done]. Qed.

Lemma Issues_bind {A B : Type} (m : M A) (f : A -> M B) (l1 l2 : list request) :
  Issues m l1 -> (forall a, Issues (f a) l2) -> Issues (bind m f) (l1 ++ l2).
Proof.
  destruct m as [t [a|e]]; simpl; intros H1 H2.
  - specialize (H2 a). destruct (f a) as [t' [b|e]]; simpl in *;
      rewrite requests_of_app, H1; [by rewrite H2|by apply prefix_app].
  - by apply prefix_app_r.
Qed.

Lemma Issues_nothing {A B : Type} (m : M A) (f : A -> M B) (l : list request) :
  Issues m [] -> (forall a, Issues (f a) l) -> Issues (bind m f) l.
Proof. intros H1 H2. by apply (Issues_bind m f [] l). Qed.

Lemma Issues_send (rq : request) (rp : reply) : Issues (send rq rp) [rq].
Proof. destruct rp; simpl; reflexivity. Qed.

Lemma Issues_lift {A : Type} (r : result A) : Issues (lift r) [].
Proof. destruct r; simpl; reflexivity. Qed.

Lemma Issues_ret {A : Type} (a : A) : Issues (ret a) [].
Proof. done. Qed.

Lemma Issues_eprint (l : log) : Issues (eprint l) [].
Proof. done. Qed.

Lemma Issues_print (s : string) : Issues (print s) [].
Proof. done. Qed.

Lemma Issues_when (b : bool) (m : M unit) : Issues m [] -> Issues (when b m) [].
Proof. by destruct b. Qed.

Lemma Issues_raise_for_status (r : response) : Issues (raise_for_status r) [].
Proof. unfold raise_for_status. destruct (_ && _); simpl; reflexivity. Qed.

Lemma Issues_json_of (r : response) : Issues (json_of r) [].
Proof. unfold json_of. destruct (body r); simpl; reflexivity. Qed.

Lemma Issues_item (c : json) (k : string) : Issues (item c k) [].
Proof. apply Issues_lift. Qed.

Lemma Issues_then_nothing {A B : Type} (m : M A) (f : A -> M B) (l : list request) :
  Issues m l -> (forall a, Issues (f a) []) -> Issues (bind m f) l.
Proof. intros H1 H2. rewrite <- (app_nil_r l). by apply Issues_bind. Qed.

Lemma Issues_send_then {B : Type} (rq : request) (rp : reply) (f : response -> M B) :
  (forall r, Issues (f r) []) -> Issues (bind (send rq rp) f) [rq].
Proof. intros H. apply (Issues_bind _ f [rq] []); [apply Issues_send|done]. Qed.

End Requests.

Create HintDb issues.
#[local] Hint Resolve Issues_lift Issues_ret Issues_eprint Issues_print Issues_when
  Issues_raise_for_status Issues_json_of Issues_item : issues.

Ltac issues_nothing :=
  repeat first
    [ apply Issues_nothing; [solve [auto with issues]|intros ?]
    | solve [auto with issues] ].

Section Stages.

Variables (args : Args) (w : world).

Lemma probe_issues :
  Issues (probe args w) [status_request args; opensearch_request args].
Proof.
  unfold probe.
  apply (Issues_bind _ _ [status_request args] [opensearch_request args]);
    [apply Issues_send|intros ?].
  issues_nothing.
  apply Issues_send_then. intros r. issues_nothing.
Qed.

Lemma lookup_issues : Issues (lookup args w) [find_request args].
Proof.
  unfold lookup. apply Issues_send_then. intros r. issues_nothing.
  apply Issues_nothing; [|intros ?; issues_nothing].
  destruct (Nat.ltb 0 _); issues_nothing.
Qed.

Lemma resolve_issues :
  Issues (resolve args w)
    [status_request args; opensearch_request args; find_request args].
Proof.
  unfold resolve.
  apply (Issues_bind _ _ [status_request args; opensearch_request args]
                         [find_request args]); [apply probe_issues|intros v].
  apply Issues_then_nothing; [apply lookup_issues|done].
Qed.

(** The template request goes out whatever happens next in the [try]. *)
Lemma fetch_template_requests (name : string) :
  requests_of (events (fetch_template args w name)) = [template_request args name].
Proof.
  unfold fetch_template.
  match goal with |- context [bind _ ?k] => set (f := k) end.
  assert (forall r, Issues (f r) []) as Hf by (intros r; unfold f; issues_nothing).
  unfold send. destruct (on_template w) as [what|r]; simpl; [done|].
  specialize (Hf r). destruct (f r) as [t [j|e]]; simpl in *.
  - by rewrite Hf.
  - apply prefix_nil_inv in Hf. by rewrite Hf.
Qed.

Lemma template_merge_requests (name : string) (st : merge_state) :
  requests_of (events (template_merge args w name st)) = [template_request args name].
Proof.
  pose proof (fetch_template_requests name) as H. unfold template_merge.
  destruct (fetch_template args w name) as [t [info|e]]; simpl in H.
  - destruct (Py.iter info) as [keys|e]; simpl.
    + destruct (merge_fields info st keys) as [st' [e|]]; simpl;
        rewrite ?requests_of_app, ?H; done.
    + by rewrite requests_of_app, H.
  - simpl. by rewrite requests_of_app, H.
Qed.

Lemma template_merge_returns (name : string) (st : merge_state) :
  exists st', snd (template_merge args w name st) = Ok st'.
Proof.
  unfold template_merge.
  destruct (fetch_template args w name) as [t [info|e]]; [|by eexists].
  destruct (Py.iter info) as [keys|e]; [|by eexists].
  destruct (merge_fields info st keys) as [st' [e|]]; by eexists.
Qed.

Lemma template_merge_issues (name : string) (st : merge_state) :
  Issues (template_merge args w name st) [template_request args name].
Proof.
  pose proof (template_merge_requests name st) as H.
  destruct (template_merge_returns name st) as [st' H'].
  destruct (template_merge args w name st) as [t r]; simpl in *. by subst r.
Qed.

Lemma prepare_issues :
  Issues (prepare args w) (fields_request args :: template_requests args).
Proof.
  unfold prepare.
  apply (Issues_bind _ _ [fields_request args] (template_requests args));
    [apply Issues_send|intros ?].
  issues_nothing.
  apply Issues_then_nothing.
  - unfold template_requests. destruct (template args); [|done].
    apply template_merge_issues.
  - intros st. apply Issues_nothing; [|intros ?; issues_nothing].
    destruct (debug args); issues_nothing.
Qed.

Lemma write_back_issues (dashboardsVersion indexId : json) (u : IndexPatternUpdate) :
  Issues (write_back args w dashboardsVersion indexId u)
         (put_requests args dashboardsVersion indexId u).
Proof.
  unfold write_back, put_requests. destruct (dryrun args); simpl; [done|].
  apply Issues_send_then. intros r. issues_nothing.
Qed.

(** [main], stage by stage. *)
Lemma main_cases :
  match resolve args w with
  | (t1, Raise e) => main args w = (header args ++ t1, Raise e)
  | (t1, Ok (dashboardsVersion, indexId)) =>
      if Py.eq indexId JNull then
        main args w = (header args ++ t1 ++ [Stdout (failure_line args)], Ok tt)
      else
        match prepare args w with
        | (t2, Raise e) => main args w = (header args ++ t1 ++ t2, Raise e)
        | (t2, Ok u) =>
            match write_back args w dashboardsVersion indexId u with
            | (t3, Raise e) => main args w = (header args ++ t1 ++ t2 ++ t3, Raise e)
            | (t3, Ok _) =>
                main args w
                = (header args ++ t1 ++ t2 ++ t3 ++ [Stdout (success_line args)], Ok tt)
            end
        end
  end.
Proof.
  unfold main, header, success_line, failure_line.
  destruct (resolve args w) as [t1 [[v id]|e]]; [|by destruct (debug args)].
  destruct id; simpl Py.eq; cbv iota;
    try (by destruct (debug args));
    destruct (prepare args w) as [t2 [u|e]]; try (by destruct (debug args));
    cbn [bind fst snd];
    match goal with
    | |- context [write_back args w v ?i u] =>
        destruct (write_back args w v i u) as [t3 [[]|e]]
    end;
    destruct (debug args), (dryrun args); reflexivity.
Qed.

Lemma header_requests : requests_of (header args) = [].
Proof. unfold header. by destruct (debug args). Qed.

Lemma main_requests :
  exists dashboardsVersion indexId u,
    requests_of (events (main args w)) `prefix_of` all_requests args dashboardsVersion indexId u.
Proof.
  pose proof main_cases as Hm. pose proof resolve_issues as H1.
  pose proof prepare_issues as H2. unfold all_requests.
  destruct (resolve args w) as [t1 [[v id]|e]]; simpl in H1.
  - destruct (Py.eq id JNull).
    + exists v, id, {| title := ""; fields := JNull; fieldFormatMap := ∅ |}.
      rewrite Hm. simpl. rewrite !requests_of_app, header_requests, H1. simpl.
      by do 3 apply prefix_cons; apply prefix_nil.
    + destruct (prepare args w) as [t2 [u|e]]; simpl in H2.
      * exists v, id, u. pose proof (write_back_issues v id u) as H3.
        destruct (write_back args w v id u) as [t3 [[]|e]]; simpl in H3;
          rewrite Hm; simpl; rewrite !requests_of_app, header_requests, H1, H2; simpl.
        -- rewrite H3, app_nil_r. done.
        -- do 4 apply prefix_cons. by apply prefix_app.
      * exists v, id, {| title := ""; fields := JNull; fieldFormatMap := ∅ |}.
        rewrite Hm. simpl. rewrite !requests_of_app, header_requests, H1. simpl.
        do 3 apply prefix_cons. change (requests_of t2 `prefix_of`
          (fields_request args :: template_requests args) ++ put_requests args v id
            {| title := ""; fields := JNull; fieldFormatMap := ∅ |}).
        by apply prefix_app_r.
  - exists JNull, JNull, {| title := ""; fields := JNull; fieldFormatMap := ∅ |}.
    rewrite Hm. simpl. rewrite !requests_of_app, header_requests. simpl.
    change (requests_of t1 `prefix_of`
      [status_request args; opensearch_request args; find_request args] ++
      (fields_request args :: template_requests args ++ put_requests args JNull JNull
            {| title := ""; fields := JNull; fieldFormatMap := ∅ |})).
    by apply prefix_app_r.
Qed.

End Stages.

(** ** What a computation never writes *)

Section Never.

Variable b : event -> bool.

Lemma Never_bind {A B : Type} (m : M A) (f : A -> M B) :
  Never b m -> (forall a, Never b (f a)) -> Never b (bind m f).
Proof.
  unfold Never. destruct m as [t [a|e]]; simpl; intros H1 H2; [|done].
  specialize (H2 a). destruct (f a) as [t' r]. simpl in *. by apply Forall_app.
Qed.

Lemma Never_send (rq : request) (rp : reply) :
  b (Sent rq) = false -> Never b (send rq rp).
Proof. intros H. unfold Never. simpl. by constructor. Qed.

Lemma Never_eprint (l : log) : b (Stderr l) = false -> Never b (eprint l).
Proof. intros H. unfold Never. simpl. by constructor. Qed.

Lemma Never_lift {A : Type} (r : result A) : Never b (lift r).
Proof. constructor. Qed.

Lemma Never_ret {A : Type} (a : A) : Never b (ret a).
Proof. constructor. Qed.

Lemma Never_raise_for_status (r : response) : Never b (raise_for_status r).
Proof. unfold raise_for_status. destruct (_ && _); constructor. Qed.

Lemma Never_json_of (r : response) : Never b (json_of r).
Proof. unfold json_of. destruct (body r); constructor. Qed.

Lemma Never_item (c : json) (k : string) : Never b (item c k).
Proof. constructor. Qed.

Lemma Never_when (c : bool) (m : M unit) : Never b m -> Never b (when c m).
Proof. destruct c; [done|constructor]. Qed.

End Never.

Ltac never :=
  repeat first
    [ apply Never_lift | apply Never_ret | apply Never_item | apply Never_json_of
    | apply Never_raise_for_status
    | apply Never_send; reflexivity
    | apply Never_eprint; reflexivity
    | apply Never_when
    | apply Never_bind; [|intros ?]
    | match goal with |- Never _ (if ?c then _ else _) => destruct c end ].

Section Quiet.

Variables (args : Args) (w : world).

(** Only the version probe reports a version, and only [main] itself
    writes to stdout. *)
Lemma probe_quiet : Never is_stdout (probe args w).
Proof. unfold probe. never. Qed.

Lemma lookup_quiet (b : event -> bool) :
  (forall rq, b (Sent rq) = false) ->
  (forall i j, b (Stderr (LogIndexId i j)) = false) ->
  Never b (lookup args w).
Proof.
  intros Hs Hl. unfold lookup.
  repeat first
    [ apply Never_send; apply Hs | apply Never_eprint; apply Hl | progress never ].
Qed.

Lemma template_merge_quiet (b : event -> bool) (name : string) (st : merge_state) :
  (forall rq, b (Sent rq) = false) ->
  (forall e n, b (Stderr (LogSkipMerge e n)) = false) ->
  Never b (template_merge args w name st).
Proof.
  intros Hs Hl.
  assert (Never b (fetch_template args w name)) as H.
  { unfold fetch_template. repeat first [apply Never_send; apply Hs | progress never]. }
  unfold template_merge, Never in *.
  destruct (fetch_template args w name) as [t [info|e]]; simpl in *.
  - destruct (Py.iter info) as [keys|e]; simpl.
    + destruct (merge_fields info st keys) as [st' [e|]]; simpl; [|done].
      apply Forall_app. split; [done|]. constructor; [apply Hl|constructor].
    + apply Forall_app. split; [done|]. constructor; [apply Hl|constructor].
  - apply Forall_app. split; [done|]. constructor; [apply Hl|constructor].
Qed.

Lemma prepare_quiet (b : event -> bool) :
  (forall rq, b (Sent rq) = false) ->
  (forall e n, b (Stderr (LogSkipMerge e n)) = false) ->
  (forall i n, b (Stderr (LogFieldCount i n)) = false) ->
  Never b (prepare args w).
Proof.
  intros Hs Hl Hc. unfold prepare.
  apply Never_bind; [apply Never_send; apply Hs|intros ?].
  do 5 (apply Never_bind; [never|intros ?]).
  apply Never_bind.
  { destruct (template args); [by apply template_merge_quiet|never]. }
  intros st. apply Never_bind; [|intros ?; never].
  destruct (debug args); [|never].
  apply Never_bind; [never|intros ?]. apply Never_eprint, Hc.
Qed.

Lemma write_back_quiet (b : event -> bool) (v i : json) (u : IndexPatternUpdate) :
  (forall rq, b (Sent rq) = false) ->
  Never b (write_back args w v i u).
Proof.
  intros Hs. unfold write_back. destruct (negb (dryrun args)); [|never].
  apply Never_bind; [apply Never_send; apply Hs|intros ?; never].
Qed.

Lemma resolve_cases :
  match probe args w with
  | (t1, Raise e) => resolve args w = (t1, Raise e)
  | (t1, Ok v) =>
      match lookup args w with
      | (t2, Raise e) => resolve args w = (t1 ++ t2, Raise e)
      | (t2, Ok i) => resolve args w = (t1 ++ t2, Ok (v, i))
      end
  end.
Proof.
  unfold resolve.
  destruct (probe args w) as [t1 [v|e]]; [|done].
  destruct (lookup args w) as [t2 [i|e]]; simpl; [|done].
  by rewrite app_nil_r.
Qed.

(** Where an event of a run comes from. *)
Lemma main_event (e : event) :
  In e (events (main args w)) ->
  In e (header args) \/ In e (events (probe args w)) \/ In e (events (lookup args w))
  \/ In e (events (prepare args w))
  \/ (exists v i u, In e (events (write_back args w v i u)))
  \/ e = Stdout (failure_line args) \/ e = Stdout (success_line args).
Proof.
  pose proof (main_cases args w) as Hm. pose proof resolve_cases as Hr.
  destruct (probe args w) as [t1 [v|e1]];
    [destruct (lookup args w) as [t2 [i|e2]]|]; rewrite Hr in Hm;
    [destruct (Py.eq i JNull);
      [|destruct (prepare args w) as [t3 [u|e3]];
        [pose proof (eq_refl (write_back args w v i u)) as Hw;
         destruct (write_back args w v i u) as [t4 [[]|e4]] in Hm, Hw at 2|]]| |];
    rewrite Hm; cbn [events fst]; rewrite !in_app_iff;
    intros H; repeat (destruct H as [H|H]); try contradiction; try subst e;
    auto 10;
    do 4 right; left; exists v, i, u; by rewrite Hw.
Qed.

End Quiet.


(** ** Claims about the run *)

Lemma quiet_stdout {A : Type} (m : M A) :
  Never is_stdout m -> stdout_of (events m) = [].
Proof.
  unfold Never. induction (events m) as [|e t IH]; [done|].
  intros H. inversion H as [|? ? He Ht]; subst. simpl.
  destruct e; try discriminate; by apply IH.
Qed.

Lemma stdout_of_app (t1 t2 : list event) :
  stdout_of (t1 ++ t2) = stdout_of t1 ++ stdout_of t2.
Proof. apply omap_app. Qed.

Lemma header_stdout (args : Args) : stdout_of (header args) = [].
Proof. unfold header. by destruct (debug args). Qed.

Lemma py_eq_null (j : json) : Py.eq j JNull = true <-> j = JNull.
Proof. by destruct j. Qed.

Lemma all_requests_length (args : Args) (v i : json) (u : IndexPatternUpdate) :
  (length (all_requests args v i u) <= 6)%nat.
Proof.
  unfold all_requests, template_requests, put_requests.
  destruct (template args), (dryrun args); simpl; lia.
Qed.

(** C5, as stated, fails: a run with a template and without dry-run sends six
    requests, the second of them to the root of the data store. *)
Lemma a_full_run_sends_six_requests :
  let a := Scenario.with_template "tmpl" Scenario.args in
  let sent := requests_of (events (main a Scenario.base)) in
  length sent = 6%nat /\
  ~ (length sent <= 5)%nat /\
  firstn 5 sent = [status_request a; opensearch_request a; find_request a;
                   fields_request a; template_request a "tmpl"] /\
  map is_put sent = [false; false; false; false; false; true].
Proof.
  vm_compute. split; [reflexivity|]. split; [lia|]. split; reflexivity.
Qed.

(** C5, amended. A run sends at most six requests, and they are the first
    few of: the status request, the request to the root of the data store,
    the pattern lookup, the field-list fetch, the template fetch when a
    template is named, and the write when this is not a dry run. *)
Theorem at_most_six_requests (args : Args) (w : world) :
  exists dashboardsVersion indexId putIndexInfo,
    requests_of (events (main args w))
      `prefix_of` all_requests args dashboardsVersion indexId putIndexInfo /\
    (length (requests_of (events (main args w))) <= 6)%nat.
Proof.
  destruct (main_requests args w) as (v & i & u & H). exists v, i, u.
  split; [done|]. apply prefix_length in H.
  pose proof (all_requests_length args v i u). lia.
Qed.

Lemma status_ok_passes (r : response) :
  (400 <=? status_code r) && (status_code r <? 600) = false ->
  raise_for_status r = ([], Ok tt).
Proof. unfold raise_for_status. by intros ->. Qed.

(** The lookup when the service answers with an empty list of saved objects. *)
Lemma lookup_empty (args : Args) (w : world) (r : response) (doc : json) :
  on_find w = Replies r ->
  (400 <=? status_code r) && (status_code r <? 600) = false ->
  body r = Some doc ->
  Py.getitem doc (JStr "saved_objects") = Ok (JArr []) ->
  lookup args w =
    (Sent (find_request args) ::
       (if debug args then [Stderr (LogIndexId (index args) JNull)] else []),
     Ok JNull).
Proof.
  intros Hf Hs Hb Hd. unfold lookup, send, json_of, item.
  rewrite Hf. cbn [bind]. rewrite (status_ok_passes r Hs), Hb. cbn [bind ret app].
  rewrite Hd. by destruct (debug args).
Qed.

Lemma find_request_not_in_probe (args : Args) (w : world) :
  ~ In (Sent (find_request args)) (events (probe args w)).
Proof.
  intros H. apply requests_of_sent in H.
  pose proof (Issues_prefix _ _ (probe_issues args w)) as [k Hk].
  assert (In (find_request args) [status_request args; opensearch_request args]) as Hin.
  { rewrite Hk. apply in_app_iff. by left. }
  destruct Hin as [Hin|[Hin|[]]]; discriminate Hin.
Qed.

(** C6. When the pattern lookup is made and answered with zero saved
    objects, the run prints the failure line with the index name in it,
    exits with status 0, and has sent the status request, the request to
    the data store and the lookup, and nothing after them. *)
Theorem pattern_not_found_reports_failure (args : Args) (w : world)
    (r : response) (doc : json) :
  In (Sent (find_request args)) (events (main args w)) ->
  on_find w = Replies r ->
  (400 <=? status_code r) && (status_code r <? 600) = false ->
  body r = Some doc ->
  Py.getitem doc (JStr "saved_objects") = Ok (JArr []) ->
  stdout_of (events (main args w))
    = ["failure (could not find Index ID for " +:+ index args +:+ ")"] /\
  exit_status (main args w) = 0 /\
  requests_of (events (main args w))
    = [status_request args; opensearch_request args; find_request args].
Proof.
  intros Hin Hf Hs Hb Hd.
  pose proof (main_cases args w) as Hm. pose proof (resolve_cases args w) as Hr.
  pose proof (find_request_not_in_probe args w) as Hp.
  pose proof (probe_issues args w) as Hi. pose proof (probe_quiet args w) as Hq.
  apply quiet_stdout in Hq.
  rewrite (lookup_empty args w r doc Hf Hs Hb Hd) in Hr.
  destruct (probe args w) as [t1 [v|e]]; simpl in Hp, Hi, Hq; rewrite Hr in Hm.
  - simpl in Hm. rewrite Hm. cbn [events fst exit_status].
    rewrite !stdout_of_app, !requests_of_app, header_stdout, header_requests, Hq, Hi.
    by destruct (debug args).
  - exfalso. rewrite Hm in Hin. cbn [events fst] in Hin.
    apply in_app_iff in Hin as [Hin|Hin]; [|done].
    unfold header in Hin. destruct (debug args); simpl in Hin; intuition discriminate.
Qed.

Lemma pattern_not_found_reports_failure_witness :
  stdout_of (events (main Scenario.args Scenario.no_pattern))
    = ["failure (could not find Index ID for test-*)"] /\
  exit_status (main Scenario.args Scenario.no_pattern) = 0 /\
  requests_of (events (main Scenario.args Scenario.no_pattern))
    = [status_request Scenario.args; opensearch_request Scenario.args;
       find_request Scenario.args].
Proof.
  apply (pattern_not_found_reports_failure Scenario.args Scenario.no_pattern
           {| status_code := 200; body := Some (JObj [("saved_objects", JArr [])]) |}
           (JObj [("saved_objects", JArr [])])).
  - vm_compute. tauto.
  - reflexivity.
  - reflexivity.
  - reflexivity.
  - reflexivity.
Defined.

(** Nothing before the write reads the dry-run flag. *)
Lemma resolve_dryrun (b : bool) (args : Args) (w : world) :
  resolve (with_dryrun b args) w = resolve args w.
Proof. reflexivity. Qed.

Lemma prepare_dryrun (b : bool) (args : Args) (w : world) :
  prepare (with_dryrun b args) w = prepare args w.
Proof. reflexivity. Qed.

Lemma header_dryrun_requests (b : bool) (args : Args) :
  requests_of (header (with_dryrun b args)) = requests_of (header args).
Proof. by rewrite !header_requests. Qed.

(** C8, as stated, fails: a dry run on an index pattern that does not exist
    prints the failure line, not the success line. *)
Lemma dry_run_on_unknown_pattern_reports_failure :
  let a := with_dryrun true Scenario.args in
  dryrun a = true /\
  stdout_of (events (main a Scenario.no_pattern))
    = ["failure (could not find Index ID for test-*)"] /\
  stdout_of (events (main a Scenario.no_pattern))
    <> ["success (dry run only, no write performed)"].
Proof. vm_compute. split; [reflexivity|]. split; [reflexivity|discriminate]. Qed.

(** C8, amended. A dry run never sends the write.  When the pattern is
    resolved and the update is assembled, the dry run prints the dry-run
    success line and exits with status 0, and the same run without the flag
    sends the same requests followed by the write of that update. *)
Theorem dry_run_skips_only_the_write (args : Args) (w : world) :
  dryrun args = true ->
  (forall r, In (Sent r) (events (main args w)) -> is_put r = false) /\
  (forall dashboardsVersion indexId putIndexInfo,
      snd (resolve args w) = Ok (dashboardsVersion, indexId) ->
      indexId <> JNull ->
      snd (prepare args w) = Ok putIndexInfo ->
      stdout_of (events (main args w)) = ["success (dry run only, no write performed)"] /\
      exit_status (main args w) = 0 /\
      requests_of (events (main (with_dryrun false args) w))
        = requests_of (events (main args w))
          ++ [put_request args dashboardsVersion indexId putIndexInfo]).
Proof.
  intros Hdry. split.
  - intros r Hin. apply requests_of_sent in Hin.
    destruct (main_requests args w) as (v & i & u & [k Hk]).
    assert (In r (all_requests args v i u)) as Hall.
    { rewrite Hk. apply in_app_iff. by left. }
    unfold all_requests, put_requests, template_requests in Hall.
    rewrite Hdry, app_nil_r in Hall.
    destruct (template args); simpl in Hall;
      repeat (destruct Hall as [Hall|Hall]); try contradiction; by subst r.
  - intros v i u Hr Hi Hp.
    assert (Py.eq i JNull = false) as Hnull.
    { destruct (Py.eq i JNull) eqn:E; [|done]. by apply py_eq_null in E. }
    pose proof (main_cases args w) as Hdrycase.
    pose proof (main_cases (with_dryrun false args) w) as Hwet.
    rewrite resolve_dryrun, prepare_dryrun in Hwet.
    pose proof (resolve_issues args w) as H1. pose proof (prepare_issues args w) as H2.
    assert (Never is_stdout (resolve args w)) as Q1.
    { unfold resolve. apply Never_bind; [apply probe_quiet|intros ?].
      apply Never_bind; [by apply lookup_quiet|intros ?; apply Never_ret]. }
    assert (Never is_stdout (prepare args w)) as Q2 by (by apply prepare_quiet).
    apply quiet_stdout in Q1, Q2.
    destruct (resolve args w) as [t1 r1]. simpl in Hr. subst r1.
    destruct (prepare args w) as [t2 r2]. simpl in Hp. subst r2.
    simpl in Q1, Q2, H1, H2. rewrite Hnull in Hdrycase, Hwet.
    unfold write_back in Hdrycase, Hwet. rewrite Hdry in Hdrycase.
    cbn [negb ret dryrun with_dryrun] in Hdrycase, Hwet.
    rewrite Hdrycase. cbn [events fst exit_status].
    rewrite !stdout_of_app, !requests_of_app, header_stdout, header_requests, Q1, Q2.
    unfold success_line. rewrite Hdry. split; [done|]. split; [done|].
    unfold send in Hwet. cbn [bind] in Hwet.
    destruct (on_put w) as [what|rp].
    + rewrite Hwet. cbn [events fst].
      rewrite !requests_of_app, !header_requests. simpl.
      by rewrite ?app_nil_r, <- ?app_assoc.
    + destruct (raise_for_status rp) as [t3 [[]|e]] eqn:E;
        pose proof (Issues_raise_for_status rp) as H3; rewrite E in H3; simpl in H3;
        [|apply prefix_nil_inv in H3];
        rewrite Hwet; cbn [events fst];
        rewrite !requests_of_app, !header_requests, ?H3; simpl;
        by rewrite ?app_nil_r, <- ?app_assoc.
Qed.

Lemma dry_run_skips_only_the_write_witness :
  let a := with_dryrun true (Scenario.with_template "tmpl" Scenario.args) in
  stdout_of (events (main a Scenario.base))
    = ["success (dry run only, no write performed)"] /\
  exit_status (main a Scenario.base) = 0 /\
  map is_put (requests_of (events (main a Scenario.base)))
    = [false; false; false; false; false] /\
  map is_put (requests_of (events (main (with_dryrun false a) Scenario.base)))
    = [false; false; false; false; false; true].
Proof.
  intros a.
  destruct (dry_run_skips_only_the_write a Scenario.base eq_refl) as [_ H].
  assert (exists u, snd (prepare a Scenario.base) = Ok u) as [u Hu]
    by (vm_compute; eauto).
  destruct (H (JStr "2.11.0") (JStr "abc123") u eq_refl ltac:(discriminate) Hu)
    as (H1 & H2 & H3).
  split; [exact H1|]. split; [exact H2|]. rewrite H3.
  split; by vm_compute.
Defined.

(** Nothing but the first of the two requests of the probe is read from. *)
Lemma probe_with_opensearch (args : Args) (w : world) (r r' : response) :
  on_opensearch w = Replies r ->
  probe args (with_opensearch (Replies r') w) = probe args w.
Proof. intros H. unfold probe. rewrite H. reflexivity. Qed.

Lemma main_with_opensearch (args : Args) (w : world) (r r' : response) :
  on_opensearch w = Replies r ->
  main args (with_opensearch (Replies r') w) = main args w.
Proof.
  intros H. unfold main, resolve. by rewrite (probe_with_opensearch args w r r' H).
Qed.

(** The line that reports the OpenSearch version carries what the status
    endpoint of the dashboard service gave. *)
Lemma probe_version_line (args : Args) (w : world) (v : json) :
  In (Stderr (LogOpenSearchVersion v)) (events (probe args w)) ->
  exists rs doc ver,
    on_status w = Replies rs /\ body rs = Some doc /\
    Py.getitem doc (JStr "version") = Ok ver /\
    Py.getitem ver (JStr "number") = Ok v.
Proof.
  unfold probe, send, raise_for_status, json_of, item, lift.
  destruct (on_status w) as [what|rs] eqn:Ers; cbn [bind events fst];
    [intros [H|[]]; discriminate H|].
  destruct ((400 <=? status_code rs) && (status_code rs <? 600)); cbn [bind ret app];
    [intros [H|[]]; discriminate H|].
  destruct (body rs) as [doc|] eqn:Edoc; cbn [bind ret app];
    [|intros [H|[]]; discriminate H].
  destruct (Py.getitem doc (JStr "version")) as [ver|] eqn:Ever; cbn [bind ret app];
    [|intros [H|[]]; discriminate H].
  destruct (Py.getitem ver (JStr "number")) as [num|] eqn:Enum; cbn [bind ret app];
    [|intros [H|[]]; discriminate H].
  intros H. exists rs, doc, ver. repeat split; try done. rewrite Enum. f_equal.
  destruct (debug args), (on_opensearch w); simpl in H;
    repeat (destruct H as [H|H]); try discriminate H; try contradiction.
  by injection H.
Qed.

(** C10. Replacing the response to the request for the root of the data
    store by any other response changes nothing in the run: the same events
    in the same order and the same outcome.  The version reported as the
    OpenSearch version is the version number of the status response of the
    dashboard service. *)
Theorem opensearch_response_is_never_read (args : Args) (w : world) (r r' : response) :
  on_opensearch w = Replies r ->
  main args (with_opensearch (Replies r') w) = main args w /\
  (forall v, In (Stderr (LogOpenSearchVersion v)) (events (main args w)) ->
     exists rs doc ver,
       on_status w = Replies rs /\ body rs = Some doc /\
       Py.getitem doc (JStr "version") = Ok ver /\
       Py.getitem ver (JStr "number") = Ok v).
Proof.
  intros H. split; [by apply (main_with_opensearch args w r r')|].
  intros v Hin.
  assert (forall A (m : M A), Never is_version_line m ->
            ~ In (Stderr (LogOpenSearchVersion v)) (events m)) as Hno.
  { intros A m Hm Hi. unfold Never in Hm.
    rewrite Forall_forall in Hm. apply list_elem_of_In, Hm in Hi. discriminate Hi. }
  apply (main_event args w) in Hin as [Hh|[Hp|[Hl|[Hp|[(v' & i & u & Hw)|[Hs|Hs]]]]]].
  - unfold header in Hh. destruct (debug args); simpl in Hh; intuition discriminate.
  - by apply (probe_version_line args).
  - exfalso. by apply (Hno _ _ (lookup_quiet args w is_version_line
                                  ltac:(done) ltac:(done))).
  - exfalso. by apply (Hno _ _ (prepare_quiet args w is_version_line
                                  ltac:(done) ltac:(done) ltac:(done))).
  - exfalso. by apply (Hno _ _ (write_back_quiet args w is_version_line v' i u
                                  ltac:(done))).
  - discriminate Hs.
  - discriminate Hs.
Qed.

Lemma opensearch_response_is_never_read_witness :
  let a := with_dryrun true Scenario.args in
  main a (with_opensearch (Replies {| status_code := 503; body := None |}) Scenario.base)
  = main a Scenario.base.
Proof.
  exact (proj1 (opensearch_response_is_never_read (with_dryrun true Scenario.args)
                  Scenario.base _ {| status_code := 503; body := None |} eq_refl)).
Defined.

(** ** The template merge against its specification *)

Section Merge.

Import MergeSpec.

Lemma in_list_present (k : string) (names : list json) :
  Py.in_list (JStr k) names = present k names.
Proof.
  unfold Py.in_list, present. induction names as [|n names IH]; [done|].
  cbn [existsb]. rewrite IH. by destruct n.
Qed.

Lemma present_app (k : string) (names more : list json) :
  present k (names ++ more) = present k names || present k more.
Proof. unfold present. apply existsb_app. Qed.

Lemma present_false (k : string) (names : list json) :
  present k names = false -> ~ In (JStr k) names.
Proof.
  unfold present. intros H Hin.
  assert (existsb (fun n => match n with JStr s => String.eqb k s | _ => false end)
                  names = true) as Ht.
  { apply existsb_exists. exists (JStr k). split; [done|apply String.eqb_refl]. }
  congruence.
Qed.

Lemma in_mergeFieldTypes (type : json) :
  Py.in_list type mergeFieldTypes
  = match type with JStr t => mem t allow_list | _ => false end.
Proof. by destruct type. Qed.

Lemma mem_In (t : string) (l : list string) : mem t l = true -> In t l.
Proof.
  unfold mem. intros H. apply existsb_exists in H as (s & Hs & He).
  apply String.eqb_eq in He. by subst.
Qed.

Lemma mergedFieldInfo_descriptor (k t : string) :
  mergedFieldInfo (JStr k) (JStr t) = descriptor k t.
Proof.
  unfold mergedFieldInfo, descriptor, semantic_type, aggregatable, mem, Py.in_list.
  cbn [existsb Py.eq]. rewrite !orb_false_r, !orb_assoc, (String.eqb_sym "text" t).
  repeat match goal with |- context [if ?b then _ else _] => destruct b end;
    reflexivity.
Qed.

(** One turn of the loop on a declaration that is a JSON object. *)
Lemma merge_field_object (props : list (string * json)) (names : list json)
    (l : list json) (k : string) (kv : list (string * json)) :
  Py.dict_get k props = Some (JObj kv) ->
  merge_field (JObj props) {| fieldsNames := names; getFieldsList := JArr l |} (JStr k)
  = if mergeable names (k, JObj kv)
    then ({| fieldsNames := names ++ [JStr k];
             getFieldsList := JArr (l ++ [descriptor_of (k, JObj kv)]) |}, None)
    else ({| fieldsNames := names; getFieldsList := JArr l |}, None).
Proof.
  intros Hk. unfold merge_field, mergeable, descriptor_of, declared_type.
  cbn [fieldsNames getFieldsList fst snd Py.getitem Py.contains].
  rewrite in_list_present, Hk.
  destruct (present k names); [done|]. cbn [negb andb Py.contains Py.getitem].
  destruct (Py.dict_get "type" kv) as [type|]; [|done].
  rewrite in_mergeFieldTypes.
  destruct type as [| | |t| |]; try done.
  destruct (mem t allow_list); [|done].
  cbn [Py.append]. by rewrite mergedFieldInfo_descriptor.
Qed.

Lemma merge_fields_objects (props : list (string * json)) :
  forall (ps : list (string * json)) (names l : list json),
    (forall p, In p ps -> Py.dict_get (fst p) props = Some (snd p)) ->
    NoDup (map fst ps) ->
    Forall (fun p => exists kv, snd p = JObj kv) ps ->
    merge_fields (JObj props) {| fieldsNames := names; getFieldsList := JArr l |}
                 (map JStr (map fst ps))
    = ({| fieldsNames :=
            names ++ map (fun p => JStr (fst p)) (List.filter (mergeable names) ps);
          getFieldsList :=
            JArr (l ++ map descriptor_of (List.filter (mergeable names) ps)) |},
       None).
Proof.
  induction ps as [|[k v] ps IH]; intros names l Hget Hnd Hobj.
  - simpl. by rewrite !app_nil_r.
  - cbn [map fst] in Hnd. apply NoDup_cons in Hnd as [Hk Hnd].
    apply Forall_cons in Hobj as [[kv Hv] Hobj]. simpl in Hv. subst v.
    assert (List.filter (mergeable (names ++ [JStr k])) ps
            = List.filter (mergeable names) ps) as Hsame.
    { apply filter_ext_in. intros [k' v'] Hin. unfold mergeable. simpl.
      rewrite present_app. simpl. rewrite orb_false_r.
      destruct (String.eqb_spec k' k) as [->|]; [|by rewrite orb_false_r].
      exfalso. apply Hk. apply list_elem_of_In.
      change k with (fst (k, v')). by apply in_map. }
    cbn [map merge_fields fst].
    rewrite (merge_field_object props names l k kv (Hget (k, JObj kv) (or_introl eq_refl))).
    cbn [List.filter].
    destruct (mergeable names (k, JObj kv)).
    + rewrite IH; [|by intros; apply Hget; right|done|done].
      rewrite Hsame. cbn [map fst]. by rewrite <- !app_assoc.
    + by rewrite IH; [|by intros; apply Hget; right|done|done].
Qed.

Lemma dict_get_NoDup (props : list (string * json)) :
  NoDup (map fst props) ->
  forall p, In p props -> Py.dict_get (fst p) props = Some (snd p).
Proof.
  induction props as [|[k v] props IH]; [done|].
  intros Hnd [k' v'] Hin. cbn [map fst] in Hnd.
  apply NoDup_cons in Hnd as [Hk Hnd]. simpl.
  destruct Hin as [[= -> ->]|Hin]; [by rewrite String.eqb_refl|].
  destruct (String.eqb_spec k' k) as [->|]; [|by apply (IH Hnd (k', v'))].
  exfalso. apply Hk. apply list_elem_of_In.
  apply in_map_iff. by exists (k, v').
Qed.

Lemma filter_NoDup_keys (f : string * json -> bool) (ps : list (string * json)) :
  NoDup (map fst ps) -> NoDup (map fst (List.filter f ps)).
Proof.
  induction ps as [|p ps IH]; [done|]. simpl.
  cbn [map]. intros [Hp Hnd]%NoDup_cons. destruct (f p); [|by apply IH].
  simpl. apply NoDup_cons. split; [|by apply IH].
  intros Hin. apply Hp. apply list_elem_of_In in Hin. apply list_elem_of_In.
  apply in_map_iff in Hin as (q & Hq & Hin). apply filter_In in Hin as [Hin _].
  rewrite <- Hq. by apply in_map.
Qed.

End Merge.

(** C2. When a template is named and its fetch succeeds, giving field
    declarations that are JSON objects under distinct names, the merge
    appends to the live list exactly one descriptor for each declaration
    whose type is in the allow-list and whose name is not among the names
    already listed, in the order of the template, and touches nothing else.
    The added names are new and distinct, and a descriptor has the semantic
    type number for float, integer, long and short, string for keyword and
    text, the declared type otherwise; it is searchable, aggregatable
    unless the declared type is text, and read from doc values exactly when
    aggregatable. *)
Theorem template_merge_adds_eligible_fields (args : Args) (w : world) (name : string)
    (r : response) (doc entry mappings : json) (props : list (string * json))
    (live names : list json) :
  on_template w = Replies r ->
  (400 <=? status_code r) && (status_code r <? 600) = false ->
  body r = Some doc ->
  Py.getitem doc (JStr name) = Ok entry ->
  Py.getitem entry (JStr "mappings") = Ok mappings ->
  Py.getitem mappings (JStr "properties") = Ok (JObj props) ->
  NoDup (map fst props) ->
  Forall (fun p => exists kv, snd p = JObj kv) props ->
  names_of live = Ok names ->
  let added := List.filter (MergeSpec.mergeable names) props in
  template_merge args w name {| fieldsNames := names; getFieldsList := JArr live |}
  = ([Sent (template_request args name)],
     Ok {| fieldsNames := names ++ map (fun p => JStr (fst p)) added;
           getFieldsList := JArr (live ++ map MergeSpec.descriptor_of added) |}) /\
  NoDup (map fst added) /\
  Forall (fun p =>
            ~ In (JStr (fst p)) names /\
            exists t, MergeSpec.declared_type (snd p) = Some t /\
                      In t MergeSpec.allow_list /\
                      MergeSpec.descriptor_of p =
                        JObj [("name", JStr (fst p));
                              ("esTypes", JArr [JStr t]);
                              ("type", JStr (MergeSpec.semantic_type t));
                              ("searchable", JBool true);
                              ("aggregatable", JBool (negb (String.eqb t "text")));
                              ("readFromDocValues", JBool (negb (String.eqb t "text")))])
         added.
Proof.
  intros Hw Hs Hb Hdoc Hentry Hprops Hnd Hobj Hnames added. split; [|split].
  - unfold template_merge, fetch_template, send, json_of, item.
    rewrite Hw. cbn [bind]. rewrite (status_ok_passes r Hs), Hb. cbn [bind ret app].
    rewrite Hdoc. cbn [bind lift app]. rewrite Hentry. cbn [bind lift app].
    rewrite Hprops. cbn [bind lift app Py.iter]. unfold Py.dict_keys.
    by rewrite (merge_fields_objects props props names live
                  (dict_get_NoDup props Hnd) Hnd Hobj).
  - by apply filter_NoDup_keys.
  - apply Forall_forall. intros [k v] Hin. apply list_elem_of_In, filter_In in Hin as [_ Hm].
    unfold MergeSpec.mergeable in Hm. apply andb_prop in Hm as [Hp Ht].
    apply negb_true_iff in Hp. split; [by apply present_false|].
    unfold MergeSpec.descriptor_of. cbn [fst snd] in *.
    destruct (MergeSpec.declared_type v) as [t|]; [|discriminate].
    exists t. split; [done|]. split; [by apply mem_In|done].
Qed.

Lemma template_merge_adds_eligible_fields_witness :
  let a := Scenario.with_template "tmpl" Scenario.args in
  template_merge a Scenario.base "tmpl"
    {| fieldsNames := [JStr "source.ip"];
       getFieldsList := JArr [field "source.ip" "ip"] |}
  = ([Sent (template_request a "tmpl")],
     Ok {| fieldsNames := [JStr "source.ip"; JStr "http.status_code"; JStr "message"];
           getFieldsList :=
             JArr [field "source.ip" "ip";
                   JObj [("name", JStr "http.status_code");
                         ("esTypes", JArr [JStr "long"]);
                         ("type", JStr "number");
                         ("searchable", JBool true);
                         ("aggregatable", JBool true);
                         ("readFromDocValues", JBool true)];
                   JObj [("name", JStr "message");
                         ("esTypes", JArr [JStr "text"]);
                         ("type", JStr "string");
                         ("searchable", JBool true);
                         ("aggregatable", JBool false);
                         ("readFromDocValues", JBool false)]] |}).
Proof.
  intros a.
  refine (proj1 (template_merge_adds_eligible_fields a Scenario.base "tmpl"
                   {| status_code := 200;
                      body := Some (Scenario.template_doc "tmpl" (JObj Scenario.properties)) |}
                   (Scenario.template_doc "tmpl" (JObj Scenario.properties))
                   (JObj [("mappings", JObj [("properties", JObj Scenario.properties)])])
                   (JObj [("properties", JObj Scenario.properties)])
                   Scenario.properties
                   [field "source.ip" "ip"] [JStr "source.ip"]
                   eq_refl eq_refl eq_refl eq_refl eq_refl eq_refl _ _ eq_refl)).
  - apply NoDup_ListNoDup. repeat constructor; simpl; intuition discriminate.
  - repeat constructor; simpl; eauto.
Defined.

(** ** An exception in the middle of the merge loop *)

(** An error raised by the fetch, or while the field declarations are pulled
    out of the response, is logged and leaves both lists as they were. *)
Lemma error_before_merge_loop_adds_nothing (args : Args) (w : world) (name : string)
    (st : merge_state) (t : list event) (e : exn) :
  fetch_template args w name = (t, Raise e) ->
  template_merge args w name st = (t ++ [Stderr (LogSkipMerge e name)], Ok st).
Proof. intros H. unfold template_merge. by rewrite H. Qed.

(** C7 at a template whose second declaration is [null]: the first
    declaration has been merged when the loop raises; the handler logs that
    the merge is skipped; the run goes on and writes a field list that holds
    the merged field. *)
Lemma exception_in_merge_loop_keeps_merged_fields :
  let a := Scenario.with_template "tmpl" Scenario.args in
  let run := main a Scenario.malformed in
  stderr_of (events run) = [LogSkipMerge TypeError "tmpl"] /\
  stdout_of (events run) = ["success"] /\
  exit_status run = 0 /\
  map fields (written (events run))
    = [JArr [field "source.ip" "ip"; MergeSpec.descriptor "a" "keyword"]].
Proof. by vm_compute. Qed.

(** When the declarations come as a list, the same loop merges a field whose
    name is a number, and the run then dies building the format map. *)
Lemma exception_in_merge_loop_can_end_the_run :
  let a := Scenario.with_template "tmpl" Scenario.args in
  let run := main a Scenario.listed in
  stderr_of (events run) = [LogSkipMerge TypeError "tmpl"] /\
  stdout_of (events run) = [] /\
  snd run = Raise TypeError /\
  exit_status run = 1.
Proof. by vm_compute. Qed.

(** * Further properties of the script *)

(** ** [str2bool] *)

Lemma cli_lower_char_idempotent (c : ascii) :
  Cli.lower_char (Cli.lower_char c) = Cli.lower_char c.
Proof. destruct c as [[] [] [] [] [] [] [] []]; reflexivity. Qed.

Lemma cli_lower_idempotent (s : string) : Cli.lower (Cli.lower s) = Cli.lower s.
Proof.
  induction s as [|c s IH]; [done|]. simpl.
  by rewrite cli_lower_char_idempotent, IH.
Qed.

(** X1. [str2bool] looks at its argument only through [lower]: lower-casing
    the argument first changes nothing.  It returns [True] exactly for the
    five words yes, true, t, y, 1 and [False] exactly for no, false, f, n,
    0, in any mix of cases, and raises for everything else. *)
Theorem str2bool_accepts_ten_words_in_any_case (v : string) :
  Cli.str2bool (Cli.lower v) = Cli.str2bool v /\
  (Cli.str2bool v = inl true <-> In (Cli.lower v) Cli.truthy) /\
  (Cli.str2bool v = inl false <-> In (Cli.lower v) Cli.falsy) /\
  (Cli.str2bool v = inr "Boolean value expected."
   <-> ~ In (Cli.lower v) (Cli.truthy ++ Cli.falsy)).
Proof.
  split; [unfold Cli.str2bool; by rewrite cli_lower_idempotent|].
  unfold Cli.str2bool.
  assert (forall l, existsb (String.eqb (Cli.lower v)) l = true <-> In (Cli.lower v) l)
    as Hin.
  { intros l. rewrite existsb_exists. split.
    - intros (x & Hx & He). apply String.eqb_eq in He. by subst.
    - intros H. exists (Cli.lower v). split; [done|apply String.eqb_refl]. }
  assert (In (Cli.lower v) Cli.truthy -> In (Cli.lower v) Cli.falsy -> False) as Hdis.
  { intros H1 H2. simpl in H1, H2.
    repeat (destruct H1 as [H1|H1]); try contradiction;
      rewrite <- H1 in H2; repeat (destruct H2 as [H2|H2]); try contradiction;
      discriminate H2. }
  rewrite in_app_iff.
  destruct (existsb (String.eqb (Cli.lower v)) Cli.truthy) eqn:Et;
    [apply Hin in Et|];
    [|destruct (existsb (String.eqb (Cli.lower v)) Cli.falsy) eqn:Ef;
      [apply Hin in Ef|]].
  - repeat split; try done; try discriminate; intros H; exfalso; eauto.
  - assert (~ In (Cli.lower v) Cli.truthy) as Hn
        by (intros H; apply Hin in H; congruence).
    repeat split; try done; try discriminate; intros H; exfalso; tauto.
  - assert (~ In (Cli.lower v) Cli.truthy) as Hn
        by (intros H; apply Hin in H; congruence).
    assert (~ In (Cli.lower v) Cli.falsy) as Hn'
        by (intros H; apply Hin in H; congruence).
    repeat split; try done; try discriminate; try tauto; intros H; exfalso; tauto.
Qed.

(** ** The outcome of a run *)

Lemma resolve_quiet (args : Args) (w : world) : Never is_stdout (resolve args w).
Proof.
  unfold resolve. apply Never_bind; [apply probe_quiet|intros ?].
  apply Never_bind; [by apply lookup_quiet|intros ?; apply Never_ret].
Qed.

Lemma failure_is_not_success (args args' : Args) :
  failure_line args <> success_line args'.
Proof. unfold failure_line, success_line. by destruct (dryrun args'). Qed.

(** X2. A run that returns has printed exactly one line on stdout, the
    failure line or the success line of its mode; a run that an exception
    ends has printed nothing there. *)
Theorem one_line_on_stdout_iff_returns (args : Args) (w : world) :
  (exit_status (main args w) = 0 /\
   (stdout_of (events (main args w)) = [failure_line args] \/
    stdout_of (events (main args w)) = [success_line args])) \/
  (exit_status (main args w) = 1 /\ stdout_of (events (main args w)) = []).
Proof.
  pose proof (main_cases args w) as Hm.
  pose proof (quiet_stdout _ (resolve_quiet args w)) as Q1.
  pose proof (quiet_stdout _ (prepare_quiet args w is_stdout
                                ltac:(done) ltac:(done) ltac:(done))) as Q2.
  destruct (resolve args w) as [t1 [[v i]|e]]; simpl in Q1.
  - destruct (Py.eq i JNull).
    + left. rewrite Hm. cbn [events fst exit_status].
      rewrite !stdout_of_app, header_stdout, Q1. auto.
    + destruct (prepare args w) as [t2 [u|e]]; simpl in Q2.
      * pose proof (quiet_stdout _ (write_back_quiet args w is_stdout v i u
                                      ltac:(done))) as Q3.
        destruct (write_back args w v i u) as [t3 [[]|e]]; simpl in Q3;
          [left|right]; rewrite Hm; cbn [events fst exit_status];
          rewrite !stdout_of_app, header_stdout, Q1, Q2, Q3; auto.
      * right. rewrite Hm. cbn [events fst exit_status].
        by rewrite !stdout_of_app, header_stdout, Q1, Q2.
  - right. rewrite Hm. cbn [events fst exit_status].
    by rewrite !stdout_of_app, header_stdout, Q1.
Qed.

(** X3. When the status endpoint answers with a 4xx or 5xx code, or the
    request to it fails, the run ends there with the exception: the status
    request is the only one sent and nothing reaches stdout. *)
Theorem failed_status_probe_ends_the_run (args : Args) (w : world) (e : exn) :
  (exists what, on_status w = Fails what /\ e = RequestException what) \/
  (exists r, on_status w = Replies r /\
             (400 <=? status_code r) && (status_code r <? 600) = true /\
             e = HTTPError (status_code r)) ->
  main args w = (header args ++ [Sent (status_request args)], Raise e).
Proof.
  intros H. pose proof (main_cases args w) as Hm.
  assert (resolve args w = ([Sent (status_request args)], Raise e)) as Hr.
  { unfold resolve, probe, send, raise_for_status.
    destruct H as [(what & -> & ->)|(r & -> & Hs & ->)]; [done|].
    cbn [bind]. by rewrite Hs. }
  by rewrite Hr in Hm.
Qed.

Lemma failed_status_probe_ends_the_run_witness :
  let w := {| on_status := Replies {| status_code := 503; body := None |};
              on_opensearch := on_opensearch Scenario.base;
              on_find := on_find Scenario.base;
              on_fields := on_fields Scenario.base;
              on_template := on_template Scenario.base;
              on_put := on_put Scenario.base |} in
  main Scenario.args w
  = ([Sent (status_request Scenario.args)], Raise (HTTPError 503)).
Proof.
  intros w.
  apply (failed_status_probe_ends_the_run Scenario.args w (HTTPError 503)).
  right. exists {| status_code := 503; body := None |}. by repeat split.
Defined.

(** Where a write in the trace comes from. *)
Lemma main_put (args : Args) (w : world) (rq : request) :
  is_put rq = true ->
  In (Sent rq) (events (main args w)) ->
  dryrun args = false /\
  exists v i u,
    snd (resolve args w) = Ok (v, i) /\ i <> JNull /\
    snd (prepare args w) = Ok u /\ rq = put_request args v i u.
Proof.
  intros Hput Hin.
  assert (forall l, In rq l -> Forall (fun r => is_put r = false) l -> False) as Hno.
  { intros l Hl Hall. rewrite Forall_forall in Hall.
    apply list_elem_of_In, Hall in Hl. congruence. }
  assert (forall t l, In (Sent rq) t -> requests_of t `prefix_of` l ->
                      Forall (fun r => is_put r = false) l -> False) as Hpre.
  { intros t l Ht [k ->] Hall. apply requests_of_sent in Ht.
    apply Forall_app in Hall as [Hall _]. by apply (Hno _ Ht). }
  assert (~ In (Sent rq) (header args)) as Hh.
  { unfold header. destruct (debug args); simpl; intuition discriminate. }
  pose proof (main_cases args w) as Hm.
  pose proof (Issues_prefix _ _ (resolve_issues args w)) as H1.
  pose proof (Issues_prefix _ _ (prepare_issues args w)) as H2.
  assert (Forall (fun r => is_put r = false)
            [status_request args; opensearch_request args; find_request args]) as G1
    by (by repeat constructor).
  assert (Forall (fun r => is_put r = false)
            (fields_request args :: template_requests args)) as G2.
  { unfold template_requests. destruct (template args); by repeat constructor. }
  destruct (resolve args w) as [t1 [[v i]|e]]; simpl in H1.
  - destruct (Py.eq i JNull) eqn:Ei.
    + exfalso. rewrite Hm in Hin. cbn [events fst] in Hin.
      rewrite !in_app_iff in Hin. destruct Hin as [?|[?|[Hs|[]]]]; eauto.
      discriminate Hs.
    + assert (i <> JNull) as Hi by (intros ->; discriminate Ei).
      destruct (prepare args w) as [t2 [u|e]]; simpl in H2.
      * assert (In (Sent rq) (events (write_back args w v i u))) as Hw.
        { destruct (write_back args w v i u) as [t3 [[]|e]];
            rewrite Hm in Hin; cbn [events fst] in *; rewrite !in_app_iff in Hin;
            destruct Hin as [?|[?|[?|Hin]]]; try (exfalso; eauto; fail); try done.
          destruct Hin as [?|[Hs|[]]]; [done|discriminate Hs]. }
        unfold write_back in Hw.
        destruct (dryrun args); [destruct Hw|]. split; [done|].
        exists v, i, u. repeat split; try done.
        cbn [negb] in Hw. unfold send in Hw. cbn [bind events fst] in Hw.
        destruct (on_put w) as [what|r]; cbn [app events fst] in Hw.
        -- destruct Hw as [[= <-]|[]]. done.
        -- destruct (raise_for_status r) as [t4 r4] eqn:E4.
           unfold raise_for_status in E4.
           destruct ((400 <=? status_code r) && (status_code r <? 600));
             injection E4 as <- <-; destruct Hw as [[= <-]|[]]; done.
      * exfalso. rewrite Hm in Hin. cbn [events fst] in Hin.
        rewrite !in_app_iff in Hin. destruct Hin as [?|[?|?]]; eauto.
  - exfalso. rewrite Hm in Hin. cbn [events fst] in Hin.
    rewrite !in_app_iff in Hin. destruct Hin as [?|?]; eauto.
Qed.

(** What the probe returns is the version number of the status response. *)
Lemma probe_returns (args : Args) (w : world) (v : json) :
  snd (probe args w) = Ok v ->
  exists rs doc ver,
    on_status w = Replies rs /\
    (400 <=? status_code rs) && (status_code rs <? 600) = false /\
    body rs = Some doc /\
    Py.getitem doc (JStr "version") = Ok ver /\
    Py.getitem ver (JStr "number") = Ok v.
Proof.
  unfold probe, send, raise_for_status, json_of, item, lift.
  destruct (on_status w) as [what|rs] eqn:Ers; cbn [bind snd]; [discriminate|].
  destruct ((400 <=? status_code rs) && (status_code rs <? 600)) eqn:Es;
    cbn [bind ret app snd]; [discriminate|].
  destruct (body rs) as [doc|] eqn:Edoc; cbn [bind ret app snd]; [|discriminate].
  destruct (Py.getitem doc (JStr "version")) as [ver|] eqn:Ever;
    cbn [bind ret app snd]; [|discriminate].
  destruct (Py.getitem ver (JStr "number")) as [num|] eqn:Enum;
    cbn [bind ret app snd]; [|discriminate].
  intros H. exists rs, doc, ver. repeat split; try done. rewrite Enum. f_equal.
  destruct (debug args), (on_opensearch w); simpl in H; congruence.
Qed.

Lemma resolve_returns (args : Args) (w : world) (v i : json) :
  snd (resolve args w) = Ok (v, i) ->
  snd (probe args w) = Ok v /\ snd (lookup args w) = Ok i.
Proof.
  pose proof (resolve_cases args w) as Hr.
  destruct (probe args w) as [t1 [v'|e]]; [|by rewrite Hr].
  destruct (lookup args w) as [t2 [i'|e]]; rewrite Hr; simpl; [|discriminate].
  by intros [= -> ->].
Qed.

(** X4. The line "success" means that the index pattern was written: the
    run was not a dry run, it sent the write, and the service answered the
    write with a status outside 400-599. *)
Theorem success_means_written (args : Args) (w : world) :
  stdout_of (events (main args w)) = ["success"] ->
  dryrun args = false /\
  exists v i u r,
    In (Sent (put_request args v i u)) (events (main args w)) /\
    on_put w = Replies r /\
    (400 <=? status_code r) && (status_code r <? 600) = false.
Proof.
  intros Hout.
  pose proof (main_cases args w) as Hm.
  pose proof (quiet_stdout _ (resolve_quiet args w)) as Q1.
  pose proof (quiet_stdout _ (prepare_quiet args w is_stdout
                                ltac:(done) ltac:(done) ltac:(done))) as Q2.
  destruct (resolve args w) as [t1 [[v i]|e]]; simpl in Q1.
  - destruct (Py.eq i JNull).
    + exfalso. rewrite Hm in Hout. cbn [events fst] in Hout.
      rewrite !stdout_of_app, header_stdout, Q1 in Hout. discriminate Hout.
    + destruct (prepare args w) as [t2 [u|e]]; simpl in Q2.
      * pose proof (quiet_stdout _ (write_back_quiet args w is_stdout v i u
                                      ltac:(done))) as Q3.
        pose proof (eq_refl (write_back args w v i u)) as Hw.
        destruct (write_back args w v i u) as [t3 [[]|e]] in Hm, Q3, Hw at 2;
          simpl in Q3; rewrite Hm in Hout; cbn [events fst] in Hout;
          rewrite !stdout_of_app, header_stdout, Q1, Q2, Q3 in Hout;
          [|discriminate Hout].
        unfold success_line in Hout. unfold write_back in Hw.
        destruct (dryrun args); [discriminate Hout|]. split; [done|].
        cbn [negb] in Hw. unfold send in Hw. cbn [bind] in Hw.
        destruct (on_put w) as [what|r]; [discriminate Hw|].
        exists v, i, u, r. split; [|split; [done|]].
        -- rewrite Hm. cbn [events fst]. rewrite !in_app_iff.
           do 3 right. left. destruct (raise_for_status r).
           injection Hw as <- _. by left.
        -- unfold raise_for_status in Hw.
           by destruct ((400 <=? status_code r) && (status_code r <? 600)).
      * exfalso. rewrite Hm in Hout. cbn [events fst] in Hout.
        rewrite !stdout_of_app, header_stdout, Q1, Q2 in Hout. discriminate Hout.
  - exfalso. rewrite Hm in Hout. cbn [events fst] in Hout.
    rewrite !stdout_of_app, header_stdout, Q1 in Hout. discriminate Hout.
Qed.

Lemma success_means_written_witness :
  dryrun Scenario.args = false /\
  exists v i u r,
    In (Sent (put_request Scenario.args v i u)) (events (main Scenario.args Scenario.base)) /\
    on_put Scenario.base = Replies r /\
    (400 <=? status_code r) && (status_code r <? 600) = false.
Proof.
  apply (success_means_written Scenario.args Scenario.base). by vm_compute.
Defined.

Lemma snd_bind {A B : Type} (m : M A) (f : A -> M B) :
  snd (bind m f) = match snd m with Ok a => snd (f a) | Raise e => Raise e end.
Proof. destruct m as [t [a|e]]; simpl; [|done]. by destruct (f a). Qed.

(** What [prepare] has gone through when it returns. *)
Lemma prepare_returns (args : Args) (w : world) (u : IndexPatternUpdate) :
  snd (prepare args w) = Ok u ->
  exists r doc live listed names st,
    on_fields w = Replies r /\
    (400 <=? status_code r) && (status_code r <? 600) = false /\
    body r = Some doc /\
    Py.getitem doc (JStr "fields") = Ok live /\
    Py.iter live = Ok listed /\
    names_of listed = Ok names /\
    snd match template args with
        | Some name =>
            template_merge args w name {| fieldsNames := names; getFieldsList := live |}
        | None => ret {| fieldsNames := names; getFieldsList := live |}
        end = Ok st /\
    build_fieldFormatMap (getFieldsList st) = Ok (fieldFormatMap u) /\
    fields u = getFieldsList st /\
    title u = index args.
Proof.
  unfold prepare. rewrite snd_bind. unfold send at 1. cbn [snd].
  destruct (on_fields w) as [what|r] eqn:Er; [discriminate|].
  rewrite snd_bind. unfold raise_for_status at 1.
  destruct ((400 <=? status_code r) && (status_code r <? 600)) eqn:Es;
    [discriminate|]. cbn [snd ret].
  rewrite snd_bind. unfold json_of at 1.
  destruct (body r) as [doc|] eqn:Ed; [|discriminate]. cbn [snd ret].
  rewrite snd_bind. unfold item at 1, lift at 1. cbn [snd].
  destruct (Py.getitem doc (JStr "fields")) as [live|] eqn:El; [|discriminate].
  rewrite snd_bind. unfold lift at 1. cbn [snd].
  destruct (Py.iter live) as [listed|] eqn:Ei; [|discriminate].
  rewrite snd_bind. unfold lift at 1. cbn [snd].
  destruct (names_of listed) as [names|] eqn:En; [|discriminate].
  rewrite snd_bind.
  match goal with |- context [snd ?m] =>
    lazymatch m with match template args with _ => _ end =>
      destruct (snd m) as [st|] eqn:Est end end; [|discriminate].
  rewrite snd_bind.
  match goal with |- match snd ?m with _ => _ end = _ -> _ =>
    destruct (snd m) as [[]|]; [|discriminate] end.
  rewrite snd_bind. unfold lift at 1. cbn [snd].
  destruct (build_fieldFormatMap (getFieldsList st)) as [fm|] eqn:Ef; [|discriminate].
  cbn [ret snd]. intros [= <-]. by exists r, doc, live, listed, names, st.
Qed.

(** X5. Every write carries the version number that the status endpoint
    gave, in the header [osd-version], beside the two fixed headers; it goes
    to the identifier the lookup returned, which is not [None]; and its body
    is the update assembled from the field list, under the name of the index
    pattern. *)
Theorem write_carries_probed_version (args : Args) (w : world)
    (url_prefix : string) (indexId : json) (headers : list (string * json))
    (data : IndexPatternUpdate) :
  In (Sent (Put url_prefix indexId headers data)) (events (main args w)) ->
  (exists rs doc ver v,
      on_status w = Replies rs /\ body rs = Some doc /\
      Py.getitem doc (JStr "version") = Ok ver /\
      Py.getitem ver (JStr "number") = Ok v /\
      headers = [("Content-Type", JStr "application/json");
                 ("osd-xsrf", JStr "true");
                 ("osd-version", v)]) /\
  snd (lookup args w) = Ok indexId /\ indexId <> JNull /\
  url_prefix = dashboardsUrl args +:+ "/api/saved_objects/index-pattern/" /\
  snd (prepare args w) = Ok data /\ title data = index args.
Proof.
  intros Hin.
  destruct (main_put args w (Put url_prefix indexId headers data) eq_refl Hin)
    as (_ & v & i & u & Hr & Hi & Hp & Heq).
  unfold put_request in Heq. injection Heq as -> -> -> ->.
  apply resolve_returns in Hr as [Hv Hl].
  destruct (probe_returns args w v Hv) as (rs & doc & ver & H1 & _ & H2 & H3 & H4).
  split; [by exists rs, doc, ver, v|].
  repeat split; try done.
  by destruct (prepare_returns args w u Hp)
    as (? & ? & ? & ? & ? & ? & ? & ? & ? & ? & ? & ? & ? & ? & ? & Ht).
Qed.

Lemma write_carries_probed_version_witness :
  exists data,
    In (Sent (Put "http://dashboards:5601/dashboards/api/saved_objects/index-pattern/"
                  (JStr "abc123")
                  [("Content-Type", JStr "application/json");
                   ("osd-xsrf", JStr "true");
                   ("osd-version", JStr "2.11.0")]
                  data))
       (events (main Scenario.args Scenario.base)) /\
    title data = "test-*".
Proof.
  assert (exists data,
             In (Sent (Put "http://dashboards:5601/dashboards/api/saved_objects/index-pattern/"
                           (JStr "abc123")
                           [("Content-Type", JStr "application/json");
                            ("osd-xsrf", JStr "true");
                            ("osd-version", JStr "2.11.0")]
                           data))
                (events (main Scenario.args Scenario.base))) as [data Hin].
  { vm_compute. eexists. do 4 right. left. reflexivity. }
  exists data. split; [exact Hin|].
  exact (proj2 (proj2 (proj2 (proj2 (proj2
           (write_carries_probed_version Scenario.args Scenario.base _ _ _ _ Hin)))))).
Defined.

(** ** The pattern lookup *)

Lemma index_zero {A : Type} (x : A) (l : list A) : Py.index (x :: l) 0 = Some x.
Proof. reflexivity. Qed.

Lemma lookup_first (args : Args) (w : world) (r : response) (doc first i : json)
    (rest : list json) :
  on_find w = Replies r ->
  (400 <=? status_code r) && (status_code r <? 600) = false ->
  body r = Some doc ->
  Py.getitem doc (JStr "saved_objects") = Ok (JArr (first :: rest)) ->
  Py.getitem first (JStr "id") = Ok i ->
  lookup args w =
    (Sent (find_request args) ::
       (if debug args then [Stderr (LogIndexId (index args) i)] else []),
     Ok i).
Proof.
  intros Hf Hs Hb Hd Hi. unfold lookup, send, json_of, item.
  rewrite Hf. cbn [bind]. rewrite (status_ok_passes r Hs), Hb. cbn [bind ret app].
  rewrite Hd. cbn [bind lift app Py.len length Nat.ltb Nat.leb Py.getitem].
  cbn [Py.as_index]. rewrite index_zero. cbn [bind lift app]. rewrite Hi.
  by destruct (debug args).
Qed.

(** X6. When the lookup finds one or several saved objects, the identifier
    is that of the first one, whatever the others are. *)
Theorem lookup_takes_first_saved_object (args : Args) (w : world) (r : response)
    (doc first i : json) (rest : list json) :
  on_find w = Replies r ->
  (400 <=? status_code r) && (status_code r <? 600) = false ->
  body r = Some doc ->
  Py.getitem doc (JStr "saved_objects") = Ok (JArr (first :: rest)) ->
  Py.getitem first (JStr "id") = Ok i ->
  snd (lookup args w) = Ok i.
Proof.
  intros Hf Hs Hb Hd Hi. by rewrite (lookup_first args w r doc first i rest).
Qed.

Lemma lookup_takes_first_saved_object_witness :
  snd (lookup Scenario.args
         (Scenario.with_find
            (Scenario.ok (JObj [("saved_objects",
                                 JArr [JObj [("id", JStr "first")];
                                       JObj [("id", JStr "second")]])]))
            Scenario.base)) = Ok (JStr "first").
Proof.
  apply (lookup_takes_first_saved_object Scenario.args _
           {| status_code := 200;
              body := Some (JObj [("saved_objects",
                                   JArr [JObj [("id", JStr "first")];
                                         JObj [("id", JStr "second")]])]) |}
           (JObj [("saved_objects",
                   JArr [JObj [("id", JStr "first")]; JObj [("id", JStr "second")]])])
           (JObj [("id", JStr "first")]) (JStr "first")
           [JObj [("id", JStr "second")]]); reflexivity.
Defined.

(** X7. A first saved object whose identifier is [null] counts as no index
    pattern: the run prints the failure line, exits with status 0, and sends
    nothing after the lookup. *)
Theorem null_identifier_reports_failure (args : Args) (w : world)
    (r : response) (doc first : json) (rest : list json) :
  In (Sent (find_request args)) (events (main args w)) ->
  on_find w = Replies r ->
  (400 <=? status_code r) && (status_code r <? 600) = false ->
  body r = Some doc ->
  Py.getitem doc (JStr "saved_objects") = Ok (JArr (first :: rest)) ->
  Py.getitem first (JStr "id") = Ok JNull ->
  stdout_of (events (main args w)) = [failure_line args] /\
  exit_status (main args w) = 0 /\
  requests_of (events (main args w))
    = [status_request args; opensearch_request args; find_request args].
Proof.
  intros Hin Hf Hs Hb Hd Hi.
  pose proof (main_cases args w) as Hm. pose proof (resolve_cases args w) as Hr.
  pose proof (find_request_not_in_probe args w) as Hp.
  pose proof (probe_issues args w) as Hq. pose proof (probe_quiet args w) as Hs'.
  apply quiet_stdout in Hs'.
  rewrite (lookup_first args w r doc first JNull rest Hf Hs Hb Hd Hi) in Hr.
  destruct (probe args w) as [t1 [v|e]]; simpl in Hp, Hq, Hs'; rewrite Hr in Hm.
  - simpl in Hm. rewrite Hm. cbn [events fst exit_status].
    rewrite !stdout_of_app, !requests_of_app, header_stdout, header_requests, Hs', Hq.
    by destruct (debug args).
  - exfalso. rewrite Hm in Hin. cbn [events fst] in Hin.
    apply in_app_iff in Hin as [Hin|Hin]; [|done].
    unfold header in Hin. destruct (debug args); simpl in Hin; intuition discriminate.
Qed.

Lemma null_identifier_reports_failure_witness :
  let w := Scenario.with_find
             (Scenario.ok (JObj [("saved_objects", JArr [JObj [("id", JNull)]])]))
             Scenario.base in
  stdout_of (events (main Scenario.args w))
    = ["failure (could not find Index ID for test-*)"] /\
  exit_status (main Scenario.args w) = 0 /\
  requests_of (events (main Scenario.args w))
    = [status_request Scenario.args; opensearch_request Scenario.args;
       find_request Scenario.args].
Proof.
  intros w.
  apply (null_identifier_reports_failure Scenario.args w
           {| status_code := 200;
              body := Some (JObj [("saved_objects", JArr [JObj [("id", JNull)]])]) |}
           (JObj [("saved_objects", JArr [JObj [("id", JNull)]])])
           (JObj [("id", JNull)]) []).
  - vm_compute. tauto.
  - reflexivity.
  - reflexivity.
  - reflexivity.
  - reflexivity.
  - reflexivity.
Defined.

(** ** The field list that is written *)

(** X8. Without a template, the update carries the field list exactly as the
    fields endpoint gave it, the format map built from that list, and the
    name of the index pattern as its title. *)
Theorem no_template_writes_fields_back (args : Args) (w : world)
    (u : IndexPatternUpdate) :
  template args = None ->
  snd (prepare args w) = Ok u ->
  exists r doc,
    on_fields w = Replies r /\ body r = Some doc /\
    Py.getitem doc (JStr "fields") = Ok (fields u) /\
    build_fieldFormatMap (fields u) = Ok (fieldFormatMap u) /\
    title u = index args.
Proof.
  intros Ht Hp.
  destruct (prepare_returns args w u Hp)
    as (r & doc & live & listed & names & st & H1 & _ & H2 & H3 & _ & _ & H4 & H5 & H6 & H7).
  rewrite Ht in H4. simpl in H4. injection H4 as <-. simpl in *.
  exists r, doc. by rewrite H6.
Qed.

Lemma no_template_writes_fields_back_witness :
  exists u,
    snd (prepare Scenario.args Scenario.base) = Ok u /\
    fields u = JArr [field "source.ip" "ip"] /\ title u = "test-*".
Proof.
  assert (exists u, snd (prepare Scenario.args Scenario.base) = Ok u) as [u Hu]
    by (vm_compute; eauto).
  destruct (no_template_writes_fields_back Scenario.args Scenario.base u eq_refl Hu)
    as (r & doc & Hr & Hd & Hf & _ & Ht).
  exists u. split; [exact Hu|]. split; [|exact Ht].
  injection Hr as <-. injection Hd as <-. by injection Hf.
Defined.

(** X9. A template whose fetch raises, whether the request fails, the
    status is an error, the body is not JSON or the declarations are not
    where they should be, gives the very update that no template gives. *)
Theorem failed_template_fetch_is_no_template (args : Args) (w : world)
    (name : string) (e : exn) :
  template args = Some name ->
  snd (fetch_template args w name) = Raise e ->
  snd (prepare args w) = snd (prepare (without_template args) w).
Proof.
  intros Ht Hf. unfold prepare. rewrite Ht.
  cbn [debug index dashboardsUrl opensearchUrl template dryrun without_template].
  change (fields_request (without_template args)) with (fields_request args).
  repeat (cbn beta; rewrite ?snd_bind;
          match goal with
          | |- match ?x with _ => _ end = match ?x with _ => _ end =>
              destruct x as [?|?]; [|reflexivity]
          end).
  cbn beta. rewrite ?snd_bind. unfold template_merge.
  destruct (fetch_template args w name) as [t r']. simpl in Hf. subst r'.
  reflexivity.
Qed.

Lemma failed_template_fetch_is_no_template_witness :
  let a := Scenario.with_template "missing" Scenario.args in
  snd (prepare a Scenario.base) = snd (prepare (without_template a) Scenario.base).
Proof.
  intros a.
  apply (failed_template_fetch_is_no_template a Scenario.base "missing"
           (KeyError (JStr "missing"))); reflexivity.
Defined.

(** ** The merge loop on any template *)

Lemma merge_field_extends (info : json) (st : merge_state) (f : json) (l : list json) :
  getFieldsList st = JArr l ->
  fst (merge_field info st f) = st \/
  exists type,
    Py.in_list type mergeFieldTypes = true /\
    Py.in_list f (fieldsNames st) = false /\
    merge_field info st f
    = ({| fieldsNames := fieldsNames st ++ [f];
          getFieldsList := JArr (l ++ [mergedFieldInfo f type]) |}, None).
Proof.
  intros Hl. unfold merge_field.
  destruct (Py.in_list f (fieldsNames st)) eqn:Hin; cbn [negb]; [by left|].
  destruct (Py.getitem info f) as [entry|]; [|by left].
  destruct (Py.contains "type" entry) as [[]|]; [|by left|by left].
  destruct (Py.getitem entry (JStr "type")) as [type|]; [|by left].
  destruct (Py.in_list type mergeFieldTypes) eqn:Ht; [|by left].
  right. exists type. by rewrite Hl.
Qed.

Lemma merge_fields_extends (info : json) :
  forall (keys : list json) (st : merge_state) (l : list json),
    getFieldsList st = JArr l ->
    exists added : list (json * json),
      fieldsNames (fst (merge_fields info st keys)) = fieldsNames st ++ map fst added /\
      getFieldsList (fst (merge_fields info st keys))
      = JArr (l ++ map (fun p => mergedFieldInfo (fst p) (snd p)) added) /\
      Forall (fun p => Py.in_list (snd p) mergeFieldTypes = true /\
                       Py.in_list (fst p) (fieldsNames st) = false) added.
Proof.
  induction keys as [|f keys IH]; intros st l Hl.
  - exists []. simpl. by rewrite !app_nil_r.
  - cbn [merge_fields].
    destruct (merge_field_extends info st f l Hl) as [Hsame|(type & Ht & Hf & Heq)].
    + destruct (merge_field info st f) as [st' [e|]]; simpl in Hsame; subst st'.
      * exists []. simpl. by rewrite !app_nil_r.
      * by apply IH.
    + rewrite Heq.
      destruct (IH {| fieldsNames := fieldsNames st ++ [f];
                      getFieldsList := JArr (l ++ [mergedFieldInfo f type]) |}
                   (l ++ [mergedFieldInfo f type]) eq_refl)
        as (added & Hn & Hg & Hall).
      exists ((f, type) :: added). cbn [fieldsNames] in *.
      rewrite Hn, Hg. cbn [map fst snd]. rewrite <- !app_assoc.
      split; [done|]. split; [done|]. constructor; [done|].
      eapply Forall_impl; [exact Hall|]. intros [k t] [H1 H2]. split; [done|].
      unfold Py.in_list in *. rewrite existsb_app in H2.
      by apply orb_false_iff in H2 as [H2 _].
Qed.

Lemma template_merge_appends (args : Args) (w : world) (name : string)
    (names live : list json) :
  exists st (added : list (json * json)),
    snd (template_merge args w name {| fieldsNames := names; getFieldsList := JArr live |})
    = Ok st /\
    getFieldsList st
    = JArr (live ++ map (fun p => mergedFieldInfo (fst p) (snd p)) added) /\
    fieldsNames st = names ++ map fst added /\
    Forall (fun p => Py.in_list (snd p) mergeFieldTypes = true /\
                     Py.in_list (fst p) names = false) added.
Proof.
  unfold template_merge.
  destruct (fetch_template args w name) as [t [info|e]];
    [|exists {| fieldsNames := names; getFieldsList := JArr live |}, [];
      simpl; by rewrite !app_nil_r].
  destruct (Py.iter info) as [keys|e];
    [|exists {| fieldsNames := names; getFieldsList := JArr live |}, [];
      simpl; by rewrite !app_nil_r].
  destruct (merge_fields_extends info keys
              {| fieldsNames := names; getFieldsList := JArr live |} live eq_refl)
    as (added & Hn & Hg & Hall).
  destruct (merge_fields info _ keys) as [st' [e|]]; exists st', added; by simpl in *.
Qed.

(** X10. Whatever the data store answers, well-formed or not, the merge
    returns, and what it leaves is the live field list followed by
    descriptors built by the loop: no listed field is dropped, moved or
    changed, and every added descriptor has an allow-listed type and a name
    that was not among the names listed before. *)
Theorem merge_only_appends (args : Args) (w : world) (name : string)
    (names live : list json) :
  exists st (added : list (json * json)),
    snd (template_merge args w name {| fieldsNames := names; getFieldsList := JArr live |})
    = Ok st /\
    getFieldsList st
    = JArr (live ++ map (fun p => mergedFieldInfo (fst p) (snd p)) added) /\
    fieldsNames st = names ++ map fst added /\
    Forall (fun p => Py.in_list (snd p) mergeFieldTypes = true /\
                     Py.in_list (fst p) names = false) added.
Proof. apply template_merge_appends. Qed.

(** X11. Merging a well-formed template a second time adds nothing: on the
    lists the first merge has left, the same template leaves both lists as
    they are. *)
Theorem template_merge_is_idempotent (args : Args) (w : world) (name : string)
    (r : response) (doc entry mappings : json) (props : list (string * json))
    (live names : list json) (st : merge_state) :
  on_template w = Replies r ->
  (400 <=? status_code r) && (status_code r <? 600) = false ->
  body r = Some doc ->
  Py.getitem doc (JStr name) = Ok entry ->
  Py.getitem entry (JStr "mappings") = Ok mappings ->
  Py.getitem mappings (JStr "properties") = Ok (JObj props) ->
  NoDup (map fst props) ->
  Forall (fun p => exists kv, snd p = JObj kv) props ->
  snd (template_merge args w name {| fieldsNames := names; getFieldsList := JArr live |})
  = Ok st ->
  snd (template_merge args w name st) = Ok st.
Proof.
  intros Hw Hs Hb Hdoc Hentry Hprops Hnd Hobj Hfirst.
  assert (forall names l,
             template_merge args w name {| fieldsNames := names; getFieldsList := JArr l |}
             = ([Sent (template_request args name)],
                Ok {| fieldsNames :=
                        names ++ map (fun p => JStr (fst p))
                                     (List.filter (MergeSpec.mergeable names) props);
                      getFieldsList :=
                        JArr (l ++ map MergeSpec.descriptor_of
                                       (List.filter (MergeSpec.mergeable names) props)) |}))
    as Hrun.
  { intros names0 l. unfold template_merge, fetch_template, send, json_of, item.
    rewrite Hw. cbn [bind]. rewrite (status_ok_passes r Hs), Hb. cbn [bind ret app].
    rewrite Hdoc. cbn [bind lift app]. rewrite Hentry. cbn [bind lift app].
    rewrite Hprops. cbn [bind lift app Py.iter]. unfold Py.dict_keys.
    by rewrite (merge_fields_objects props props names0 l
                  (dict_get_NoDup props Hnd) Hnd Hobj). }
  rewrite Hrun in Hfirst. simpl in Hfirst. injection Hfirst as <-.
  rewrite Hrun. simpl. f_equal.
  assert (List.filter
            (MergeSpec.mergeable
               (names ++ map (fun p => JStr (fst p))
                             (List.filter (MergeSpec.mergeable names) props)))
            props = []) as Hnone.
  { assert (forall p, In p props ->
              MergeSpec.mergeable
                (names ++ map (fun p => JStr (fst p))
                              (List.filter (MergeSpec.mergeable names) props)) p = false)
      as Hp.
    { intros [k v] Hin. unfold MergeSpec.mergeable at 1. cbn [fst snd].
      rewrite present_app.
      destruct (MergeSpec.mergeable names (k, v)) eqn:Em.
      - assert (MergeSpec.present k
                  (map (fun p => JStr (fst p))
                       (List.filter (MergeSpec.mergeable names) props)) = true) as ->.
        { unfold MergeSpec.present. apply existsb_exists. exists (JStr k).
          split; [|apply String.eqb_refl].
          apply in_map_iff. exists (k, v). split; [done|].
          apply filter_In. by split. }
        by rewrite orb_true_r.
      - unfold MergeSpec.mergeable in Em. cbn [fst snd] in Em.
        destruct (MergeSpec.present k names); [done|]. cbn [negb andb orb] in *.
        rewrite Em. apply andb_false_r. }
    revert Hp.
    generalize (names ++ map (fun p => JStr (fst p))
                             (List.filter (MergeSpec.mergeable names) props)).
    intros N. clear. induction props as [|p ps IH]; intros Hp; [done|]. simpl.
    rewrite (Hp p (or_introl eq_refl)). apply IH. intros q Hq. apply Hp. by right. }
  rewrite Hnone. simpl. by rewrite !app_nil_r.
Qed.

Lemma template_merge_is_idempotent_witness :
  let a := Scenario.with_template "tmpl" Scenario.args in
  let st := {| fieldsNames := [JStr "source.ip"; JStr "http.status_code"; JStr "message"];
               getFieldsList :=
                 JArr [field "source.ip" "ip";
                       MergeSpec.descriptor "http.status_code" "long";
                       MergeSpec.descriptor "message" "text"] |} in
  snd (template_merge a Scenario.base "tmpl" st) = Ok st.
Proof.
  intros a st.
  refine (template_merge_is_idempotent a Scenario.base "tmpl"
            {| status_code := 200;
               body := Some (Scenario.template_doc "tmpl" (JObj Scenario.properties)) |}
            (Scenario.template_doc "tmpl" (JObj Scenario.properties))
            (JObj [("mappings", JObj [("properties", JObj Scenario.properties)])])
            (JObj [("properties", JObj Scenario.properties)])
            Scenario.properties
            [field "source.ip" "ip"] [JStr "source.ip"] st
            eq_refl eq_refl eq_refl eq_refl eq_refl eq_refl _ _ eq_refl).
  - apply NoDup_ListNoDup. repeat constructor; simpl; intuition discriminate.
  - repeat constructor; simpl; eauto.
Defined.

(** ** The format map as a whole *)

Lemma format_fields_complete (fs : list json) :
  forall (m fm : gmap string DrilldownInfo) (n : string),
    format_fields m fs = Ok fm ->
    is_Some (m !! n) \/
    (exists f, In f fs /\ Py.getitem f (JStr "name") = Ok (JStr n) /\
               PyStr.head_isalpha n = true) ->
    is_Some (fm !! n).
Proof.
  induction fs as [|g fs IH]; simpl; intros m fm n H Hn.
  - injection H as <-. destruct Hn as [|(f & [] & _)]. done.
  - destruct (format_field m g) as [m1|] eqn:E; [|discriminate].
    apply (IH m1 fm n H).
    assert (is_Some (m !! n) -> is_Some (m1 !! n)) as Hkeep.
    { unfold format_field in E. intros Hs.
      destruct (Py.getitem g (JStr "name")) as [[| | |s| |]|]; try discriminate.
      destruct (PyStr.head_isalpha s); [|by injection E as <-].
      destruct (Py.getitem g (JStr "type")); [|discriminate]. injection E as <-.
      destruct (decide (s = n)) as [->|Hne];
        [rewrite lookup_insert_eq; eauto|by rewrite lookup_insert_ne]. }
    destruct Hn as [Hs|(f & [->|Hin] & Hname & Ha)]; [by left; apply Hkeep| |].
    + left. unfold format_field in E. rewrite Hname, Ha in E.
      destruct (Py.getitem f (JStr "type")); [|discriminate]. injection E as <-.
      rewrite lookup_insert_eq. eauto.
    + right. by exists f.
Qed.

Lemma format_fields_origin (fs : list json) :
  forall (m fm : gmap string DrilldownInfo) (n : string) (d : DrilldownInfo),
    format_fields m fs = Ok fm ->
    fm !! n = Some d ->
    m !! n = Some d \/
    exists f type, In f fs /\ Py.getitem f (JStr "name") = Ok (JStr n) /\
                   Py.getitem f (JStr "type") = Ok type /\
                   PyStr.head_isalpha n = true /\ d = drilldownInfo n type.
Proof.
  induction fs as [|g fs IH]; simpl; intros m fm n d H Hd.
  - injection H as <-. by left.
  - destruct (format_field m g) as [m1|] eqn:E; [|discriminate].
    destruct (IH m1 fm n d H Hd) as [H1|(f & type & Hin & Hrest)];
      [|right; exists f, type; by split; [right|]].
    unfold format_field in E.
    destruct (Py.getitem g (JStr "name")) as [[| | |s| |]|] eqn:En; try discriminate.
    destruct (PyStr.head_isalpha s) eqn:Ha; [|injection E as <-; by left].
    destruct (Py.getitem g (JStr "type")) as [type|] eqn:Et; [|discriminate].
    injection E as <-.
    destruct (decide (s = n)) as [->|Hne].
    + rewrite lookup_insert_eq in H1. injection H1 as <-.
      right. exists g, type. repeat split; try done. by left.
    + rewrite lookup_insert_ne in H1 by done. by left.
Qed.

(** X12. The keys of the finished format map are exactly the names of the
    listed fields that start with a letter, and the entry under a name is
    the one the rules build for some listed field of that name and its
    type. *)
Theorem format_map_keys_are_field_names (fs : list json)
    (fm : gmap string DrilldownInfo) :
  build_fieldFormatMap (JArr fs) = Ok fm ->
  (forall f n, In f fs -> Py.getitem f (JStr "name") = Ok (JStr n) ->
               PyStr.head_isalpha n = true -> is_Some (fm !! n)) /\
  (forall n d, fm !! n = Some d ->
     exists f type, In f fs /\ Py.getitem f (JStr "name") = Ok (JStr n) /\
                    Py.getitem f (JStr "type") = Ok type /\
                    PyStr.head_isalpha n = true /\ d = drilldownInfo n type).
Proof.
  unfold build_fieldFormatMap. cbn [Py.iter]. intros Hb. split.
  - intros f n Hin Hn Ha. apply (format_fields_complete fs ∅ fm n Hb).
    right. by exists f.
  - intros n d Hd.
    destruct (format_fields_origin fs ∅ fm n d Hb Hd) as [H|H]; [|done].
    by rewrite fin_maps.lookup_empty in H.
Qed.

Lemma format_map_keys_are_field_names_witness :
  exists fm,
    build_fieldFormatMap (JArr [field "_id" "string"; field "source.ip" "ip"]) = Ok fm /\
    is_Some (fm !! "source.ip").
Proof.
  eexists. split; [reflexivity|].
  exact (proj1 (format_map_keys_are_field_names
                  [field "_id" "string"; field "source.ip" "ip"] _ eq_refl)
               (field "source.ip" "ip") "source.ip"
               (or_intror (or_introl eq_refl)) eq_refl eq_refl).
Defined.

Lemma category_links_length (c : Spec.category) : (length (Spec.links c) <= 2)%nat.
Proof. destruct c; simpl; lia. Qed.

(** X13. Every entry of the finished format map has the identifier
    [drilldown]; its list starts with the empty placeholder, then comes
    a base link to Arkime, then at most two more links. *)
Theorem format_map_entry_shape (getFieldsList : json) (fm : gmap string DrilldownInfo)
    (n : string) (d : DrilldownInfo) :
  build_fieldFormatMap getFieldsList = Ok fm ->
  fm !! n = Some d ->
  info_id d = "drilldown" /\
  exists type more,
    urlTemplates (params d) = None :: Some (Link.base n type) :: map Some more /\
    (length more <= 2)%nat /\
    PyStr.startswith "/idkib2ark/" (url (Link.base n type)) = true.
Proof.
  unfold build_fieldFormatMap. intros Hb Hd.
  destruct (Py.iter getFieldsList) as [fs|]; [|discriminate].
  destruct (format_fields_origin fs ∅ fm n d Hb Hd)
    as [H|(f & type & _ & _ & _ & _ & ->)]; [by rewrite fin_maps.lookup_empty in H|].
  split; [done|]. exists type, (Spec.extra_links n type).
  split; [apply templates_first_match|]. split; [|done].
  unfold Spec.extra_links. destruct (Spec.first_match n type); [|simpl; lia].
  apply category_links_length.
Qed.

Lemma format_map_entry_shape_witness :
  exists fm d,
    build_fieldFormatMap (JArr [field "zeek.files.extracted" "string"]) = Ok fm /\
    fm !! "zeek.files.extracted" = Some d /\ info_id d = "drilldown" /\
    length (urlTemplates (params d)) = 4%nat.
Proof.
  eexists. eexists. split; [reflexivity|].
  assert (forall A (x : A), x = x) as R by reflexivity.
  split; [vm_compute; apply R|]. split; [|reflexivity].
  refine (proj1 (format_map_entry_shape
                   (JArr [field "zeek.files.extracted" "string"]) _
                   "zeek.files.extracted" _ eq_refl _)).
  vm_compute. reflexivity.
Defined.

(** ** A listed field without a usable name *)





(** ** The rules ignore the case of the name *)

Lemma lower_char_idempotent (c : ascii) :
  PyStr.lower_char (PyStr.lower_char c) = PyStr.lower_char c.
Proof. destruct c as [[] [] [] [] [] [] [] []]; reflexivity. Qed.

Lemma isword_lower_char (c : ascii) :
  PyStr.isword_char (PyStr.lower_char c) = PyStr.isword_char c.
Proof. destruct c as [[] [] [] [] [] [] [] []]; reflexivity. Qed.

Lemma newline_lower_char (c : ascii) :
  Ascii.eqb (PyStr.lower_char c) PyStr.newline = Ascii.eqb c PyStr.newline.
Proof. destruct c as [[] [] [] [] [] [] [] []]; reflexivity. Qed.

Lemma at_eol_fold (s : string) : Re.at_eol (ascii_fold s) = Re.at_eol s.
Proof.
  destruct s as [|c [|d s]]; simpl; [done|apply newline_lower_char|done].
Qed.

Lemma word_after_fold (s : string) : Re.word_after (ascii_fold s) = Re.word_after s.
Proof. destruct s as [|c s]; simpl; [done|apply isword_lower_char]. Qed.

Lemma word_before_fold (pre : option ascii) :
  Re.word_before (option_map PyStr.lower_char pre) = Re.word_before pre.
Proof. destruct pre as [c|]; simpl; [apply isword_lower_char|done]. Qed.

Lemma matches_fold (r : Re.regex) :
  forall (pre : option ascii) (rest : string) (k k' : option ascii -> string -> bool),
    (forall p s, k p s = k' (option_map PyStr.lower_char p) (ascii_fold s)) ->
    Re.matches r pre rest k
    = Re.matches r (option_map PyStr.lower_char pre) (ascii_fold rest) k'.
Proof.
  induction r as [c|cs|r1 IH1 r2 IH2|r1 IH1 r2 IH2|r1 IH1| | | |];
    intros pre rest k k' Hk; cbn [Re.matches].
  - destruct rest as [|d rest]; [done|]. cbn [ascii_fold].
    by rewrite lower_char_idempotent, (Hk (Some d) rest).
  - destruct rest as [|d rest]; [done|]. cbn [ascii_fold].
    by rewrite lower_char_idempotent, (Hk (Some d) rest).
  - apply IH1. intros p s. by apply IH2.
  - by rewrite (IH1 pre rest k k' Hk), (IH2 pre rest k k' Hk).
  - by rewrite (IH1 pre rest k k' Hk), (Hk pre rest).
  - apply Hk.
  - destruct pre; [done|apply Hk].
  - by rewrite at_eol_fold, (Hk pre rest).
  - by rewrite word_before_fold, word_after_fold, (Hk pre rest).
Qed.

Lemma search_from_fold (r : Re.regex) (rest : string) :
  forall pre,
    Re.search_from r (option_map PyStr.lower_char pre) (ascii_fold rest)
    = Re.search_from r pre rest.
Proof.
  induction rest as [|c rest IH]; intros pre; cbn [Re.search_from ascii_fold]; f_equal.
  - symmetry. by apply (matches_fold r pre "").
  - symmetry. by apply (matches_fold r pre (String c rest)).
  - apply (IH (Some c)).
Qed.

Lemma search_fold (r : Re.regex) (s : string) :
  Re.search r (ascii_fold s) = Re.search r s.
Proof. apply (search_from_fold r s None). Qed.

(** X15. Every rule is searched with [re.IGNORECASE]: two names that differ
    only in the case of ASCII letters are put in the same category, so that
    for the same type their lists agree after the base link. *)
Theorem rules_ignore_case (name name' : string) (type : json) :
  ascii_fold name = ascii_fold name' ->
  skipn 2 (drilldownInfoParamsUrlTemplates name type)
  = skipn 2 (drilldownInfoParamsUrlTemplates name' type).
Proof.
  intros H. rewrite !templates_first_match. cbn [skipn]. f_equal.
  unfold Spec.extra_links, Spec.first_match.
  assert (forall c, Spec.applies name type c = Spec.applies name' type c) as Ha.
  { intros c. destruct c; cbn [Spec.applies];
      rewrite <- (search_fold _ name), <- (search_fold _ name'), H; reflexivity. }
  assert (forall l, find (Spec.applies name type) l = find (Spec.applies name' type) l)
    as ->; [|done].
  induction l as [|c l IH]; [done|]. simpl. by rewrite Ha, IH.
Qed.

Lemma rules_ignore_case_witness :
  skipn 2 (drilldownInfoParamsUrlTemplates "File.SHA256" (JStr "keyword"))
  = skipn 2 (drilldownInfoParamsUrlTemplates "file.sha256" (JStr "keyword")).
Proof.
  apply (rules_ignore_case "File.SHA256" "file.sha256" (JStr "keyword")). reflexivity.
Defined.

(** ** Diagnostics and the data store *)

Lemma never_in {A : Type} (b : event -> bool) (m : M A) (e : event) :
  Never b m -> In e (events m) -> b e = false.
Proof.
  unfold Never. rewrite Forall_forall. intros H Hin. by apply H, list_elem_of_In.
Qed.

(** X16. Without [--verbose] the script's own lines on stderr are notices of
    a skipped template merge and nothing else. *)
Theorem quiet_run_only_reports_skipped_merge (args : Args) (w : world) (l : log) :
  debug args = false ->
  In (Stderr l) (events (main args w)) ->
  exists e name, l = LogSkipMerge e name.
Proof.
  intros Hd Hin.
  assert (is_verbose_line (Stderr l) = false) as Hq.
  { apply (main_event args w) in Hin
      as [Hh|[Hp|[Hl|[Hp|[(v & i & u & Hw)|[Hs|Hs]]]]]];
      try discriminate Hs.
    - unfold header in Hh. rewrite Hd in Hh. destruct Hh.
    - revert Hp. apply never_in. unfold probe. rewrite Hd. cbn [when]. never.
    - revert Hl. apply never_in. unfold lookup. rewrite Hd. cbn [when]. never.
    - revert Hp. apply never_in. unfold prepare. rewrite Hd.
      apply Never_bind; [never|intros ?].
      do 5 (apply Never_bind; [never|intros ?]).
      apply Never_bind; [|intros ?; never].
      destruct (template args); [by apply template_merge_quiet|never].
    - revert Hw. apply never_in. by apply write_back_quiet. }
  destruct l; try discriminate Hq. eauto.
Qed.

Lemma quiet_run_only_reports_skipped_merge_witness :
  exists e name,
    LogSkipMerge TypeError "tmpl" = LogSkipMerge e name.
Proof.
  apply (quiet_run_only_reports_skipped_merge
           (Scenario.with_template "tmpl" Scenario.args) Scenario.malformed
           (LogSkipMerge TypeError "tmpl") eq_refl).
  vm_compute. tauto.
Defined.

(** X17. The answer of the data store to the request of line 73 is never
    read, but the request has to return: when it fails, the run ends with
    that exception after two requests, before any lookup, and prints
    nothing. *)
Theorem unreachable_data_store_ends_the_run (args : Args) (w : world) (what : string) :
  on_opensearch w = Fails what ->
  exit_status (main args w) = 1 /\
  stdout_of (events (main args w)) = [] /\
  requests_of (events (main args w))
    `prefix_of` [status_request args; opensearch_request args].
Proof.
  intros Hf.
  assert (exists e, snd (probe args w) = Raise e) as [e He].
  { unfold probe. rewrite snd_bind.
    destruct (snd (send (status_request args) (on_status w))) as [r|]; [|eauto].
    cbn beta. rewrite snd_bind.
    destruct (snd (raise_for_status r)) as [[]|]; [|eauto].
    cbn beta. rewrite snd_bind. destruct (snd (json_of r)) as [doc|]; [|eauto].
    cbn beta. rewrite snd_bind. destruct (snd (item doc "version")) as [ver|]; [|eauto].
    cbn beta. rewrite snd_bind. destruct (snd (item ver "number")) as [v|]; [|eauto].
    cbn beta. rewrite snd_bind.
    destruct (snd (when (debug args) (eprint (LogDashboardsVersion v)))) as [[]|];
      [|eauto].
    cbn beta. rewrite snd_bind. unfold send at 1. rewrite Hf. cbn [snd]. eauto. }
  pose proof (main_cases args w) as Hm. pose proof (resolve_cases args w) as Hr.
  pose proof (probe_issues args w) as Hi.
  pose proof (quiet_stdout _ (probe_quiet args w)) as Hq.
  destruct (probe args w) as [t1 r1]. simpl in He. subst r1. simpl in Hi, Hq.
  rewrite Hr in Hm. rewrite Hm. cbn [events fst exit_status].
  rewrite stdout_of_app, requests_of_app, header_stdout, header_requests, Hq.
  by repeat split.
Qed.

Lemma unreachable_data_store_ends_the_run_witness :
  exit_status (main Scenario.args
                 (with_opensearch (Fails "connection refused") Scenario.base)) = 1.
Proof.
  exact (proj1 (unreachable_data_store_ends_the_run Scenario.args
                  (with_opensearch (Fails "connection refused") Scenario.base)
                  "connection refused" eq_refl)).
Defined.
